(** * Review pipeline of JavaAutoReviewer: a shallow embedding

    The development follows [src/services/codeReviewService.ts] (the
    review generator) and [src/main.ts] (the orchestrator).  Effectful
    code is written in a small state-and-exit monad [Eff] that mirrors
    the fragment of the [effect] library the sources use; the state is
    the history of the calls made to the outside world. *)

From Stdlib Require Import List String Ascii Bool Arith NArith Lia.
From Stdlib Require Import DecimalString.
Import ListNotations.
Open Scope string_scope.
Open Scope list_scope.

(** ** JavaScript strings

    A string is a sequence of UTF-16 code units; the model keeps the
    code units below U+0100, one [ascii] each. *)

Module Js.

Definition newline : string := String (ascii_of_nat 10) EmptyString.

(** [lines.join("\n")]: how the multi-line template literals of the
    source are written down below. *)
Definition unlines (ls : list string) : string := String.concat newline ls.

(** A thrown value, kept as its message. *)
Definition Error := string.

(** [String(v)] for a value that may be [undefined]. *)
Definition string_of (v : option string) : string :=
  match v with
  | Some s => s
  | None => "undefined"
  end.

(** [WhiteSpace] and [LineTerminator] code units below U+0100:
    TAB, LF, VT, FF, CR, SP and NBSP. *)
Definition isWhiteSpace (c : ascii) : bool :=
  let n := nat_of_ascii c in
  ((9 <=? n)%nat && (n <=? 13)%nat) || (n =? 32)%nat || (n =? 160)%nat.

Fixpoint trimStart (s : string) : string :=
  match s with
  | EmptyString => EmptyString
  | String c rest => if isWhiteSpace c then trimStart rest else s
  end.

(** [trimEnd] drops the maximal white-space suffix: a character is kept
    when it is not white space or when something is kept after it. *)
Fixpoint trimEnd (s : string) : string :=
  match s with
  | EmptyString => EmptyString
  | String c rest =>
      match trimEnd rest with
      | EmptyString => if isWhiteSpace c then EmptyString else String c EmptyString
      | kept => String c kept
      end
  end.

(** [String.prototype.trim] *)
Definition trim (s : string) : string := trimEnd (trimStart s).

(** [s.split(sep)] for a one-character separator: the pieces between
    the occurrences of [sep]; never the empty array. *)
Fixpoint split (sep : ascii) (s : string) : list string :=
  match s with
  | EmptyString => [EmptyString]
  | String c rest =>
      if Ascii.eqb c sep then EmptyString :: split sep rest
      else match split sep rest with
           | piece :: pieces => String c piece :: pieces
           | [] => [String c EmptyString]
           end
  end.

(** Number-to-string conversion of a non-negative integer. *)
Definition string_of_N (n : N) : string := NilZero.string_of_uint (N.to_uint n).

Fixpoint occurs (c : ascii) (s : string) : bool :=
  match s with
  | EmptyString => false
  | String d rest => Ascii.eqb d c || occurs c rest
  end.

(** [s.includes(t)] *)
Fixpoint includes (s t : string) : bool :=
  String.prefix t s ||
  match s with
  | EmptyString => false
  | String _ rest => includes rest t
  end.

End Js.

(** ** The fragment of [effect] used by the sources

    An effect is run against the world [W]; it exits with a value or
    with a cause, and leaves the world it has changed. *)

Module Effect.

Inductive Error : Type :=
| NoSuchElementException
| UnknownException (error : Js.Error).

(** A cause is a typed failure ([Effect.fail]) or a defect: an exception
    thrown by a callback, which the runtime turns into [Cause.die]. *)
Inductive Cause : Type :=
| Fail (e : Error)
| Die (defect : Js.Error).

Inductive Exit (A : Type) : Type :=
| Success (a : A)
| Failure (c : Cause).
Arguments Success {A} a.
Arguments Failure {A} c.

Section Eff.

Context {W : Type}.

Definition Eff (A : Type) : Type := W -> Exit A * W.

(** A JavaScript callback run for its effect on the world: it returns
    (or its promise resolves) with [inr], it throws (or its promise
    rejects) with [inl]. *)
Definition Thunk (A : Type) : Type := W -> (Js.Error + A) * W.

Definition returns {A} (a : A) : Thunk A := fun w => (inr a, w).

Definition succeed {A} (a : A) : Eff A := fun w => (Success a, w).

Definition fail {A} (e : Error) : Eff A := fun w => (Failure (Fail e), w).

Definition die {A} (defect : Js.Error) : Eff A := fun w => (Failure (Die defect), w).

Definition flatMap {A B} (self : Eff A) (f : A -> Eff B) : Eff B :=
  fun w =>
    match self w with
    | (Success a, w') => f a w'
    | (Failure c, w') => (Failure c, w')
    end.

Definition map {A B} (self : Eff A) (f : A -> B) : Eff B :=
  flatMap self (fun a => succeed (f a)).

Definition tap {A B} (self : Eff A) (f : A -> Eff B) : Eff A :=
  flatMap self (fun a => map (f a) (fun _ => a)).

(** [Effect.sync]: a throwing thunk is a defect. *)
Definition sync {A} (thunk : Thunk A) : Eff A :=
  fun w =>
    match thunk w with
    | (inr a, w') => (Success a, w')
    | (inl thrown, w') => (Failure (Die thrown), w')
    end.

(** [Effect.tryPromise]: a rejection is the typed failure
    [UnknownException] wrapping the rejection. *)
Definition tryPromise {A} (promise : Thunk A) : Eff A :=
  fun w =>
    match promise w with
    | (inr a, w') => (Success a, w')
    | (inl rejected, w') => (Failure (Fail (UnknownException rejected)), w')
    end.

(** [Effect.fromNullable]-style lifting of a lookup. *)
Definition fromOption {A} (o : option A) : Eff A :=
  match o with
  | Some a => succeed a
  | None => fail NoSuchElementException
  end.

(** [Effect.forEach] with the default options: sequential, in order,
    stopping at the first failure. *)
Fixpoint forEach {A B} (self : list A) (f : A -> Eff B) : Eff (list B) :=
  match self with
  | [] => succeed []
  | a :: rest =>
      flatMap (f a) (fun b => map (forEach rest f) (fun bs => b :: bs))
  end.

(** [Effect.all] over an array of effects, default options. *)
Definition all {A} (effects : list (Eff A)) : Eff (list A) :=
  forEach effects (fun eff => eff).

(** [Effect.all] over a pair. *)
Definition all2 {A B} (first : Eff A) (second : Eff B) : Eff (A * B) :=
  flatMap first (fun a => map second (fun b => (a, b))).

End Eff.

Arguments Eff W A : clear implicits.
Arguments Thunk W A : clear implicits.

End Effect.

Import Effect.

(** ** LangChain's f-string prompt templates *)

Module FString.

Inductive ParsedFStringNode : Type :=
| NodeLiteral (text : string)
| NodeVariable (name : string).

(** Where the scanner of [parseFString] stands: between nodes, inside a
    literal run, or inside the braces of a variable.  The characters
    read so far are kept newest first. *)
Inductive Mode : Type :=
| Top
| InLiteral (seen : list ascii)
| InVariable (seen : list ascii).

Definition text_of (seen : list ascii) : string :=
  string_of_list_ascii (rev seen).

Definition flush (m : Mode) (nodes : list ParsedFStringNode) : list ParsedFStringNode :=
  match m with
  | InLiteral seen => NodeLiteral (text_of seen) :: nodes
  | _ => nodes
  end.

Definition push (c : ascii) (m : Mode) : Mode :=
  match m with
  | Top => InLiteral [c]
  | InLiteral seen => InLiteral (c :: seen)
  | InVariable seen => InVariable (c :: seen)
  end.

(** [parseFString]: doubled braces are literal braces, [{name}] is a
    variable (the name runs to the next closing brace), a single
    closing brace and an unclosed opening brace are errors. *)
Fixpoint scan (m : Mode) (chars : string) : Js.Error + list ParsedFStringNode :=
  match m with
  | InVariable seen =>
      match chars with
      | EmptyString => inl "Unclosed '{' in template."
      | String c rest =>
          if Ascii.eqb c "}" then
            match scan Top rest with
            | inr nodes => inr (NodeVariable (text_of seen) :: nodes)
            | inl e => inl e
            end
          else scan (InVariable (c :: seen)) rest
      end
  | _ =>
      match chars with
      | EmptyString => inr (flush m [])
      | String "{" (String "{" rest) =>
          match scan Top rest with
          | inr nodes => inr (flush m (NodeLiteral "{" :: nodes))
          | inl e => inl e
          end
      | String "}" (String "}" rest) =>
          match scan Top rest with
          | inr nodes => inr (flush m (NodeLiteral "}" :: nodes))
          | inl e => inl e
          end
      | String "{" rest =>
          match scan (InVariable []) rest with
          | inr nodes => inr (flush m nodes)
          | inl e => inl e
          end
      | String "}" _ => inl "Single '}' in template."
      | String c rest => scan (push c m) rest
      end
  end.

Definition parseFString (template : string) : Js.Error + list ParsedFStringNode :=
  scan Top template.

(** [interpolateFString], the values being looked up by [lookup]. *)
Fixpoint interpolate (lookup : string -> option string)
    (nodes : list ParsedFStringNode) (res : string) : Js.Error + string :=
  match nodes with
  | [] => inr res
  | NodeLiteral text :: rest => interpolate lookup rest (res ++ text)%string
  | NodeVariable name :: rest =>
      match lookup name with
      | Some value => interpolate lookup rest (res ++ value)%string
      | None => inl ("Missing value for input " ++ name)%string
      end
  end.

Definition interpolateFString (template : string) (lookup : string -> option string)
  : Js.Error + string :=
  match parseFString template with
  | inr nodes => interpolate lookup nodes EmptyString
  | inl e => inl e
  end.

End FString.

(** ** Data model *)

(** [PullRequestFile]: the fields of a changed file the pipeline reads;
    [patch] is absent for a file without a textual diff. *)
Record PullRequestFile : Type := {
  filename : string;
  patch : option string
}.

(** One hunk of a parsed diff, and one file entry of [parseDiff]'s
    result, with the fields the review generator reads. *)
Record Chunk : Type := { content : string }.

Record FileDiff : Type := { chunks : list Chunk }.

(** The object [{ lang, diff }] handed to [chain.call]. *)
Record ChainInput : Type := {
  lang : string;
  diff : option string
}.

(** [ChainValues]: what the chain resolves with; the review is its
    [text]. *)
Record ChainValues : Type := { text : string }.

Inductive ChatMessage : Type :=
| SystemMessage (content : string)
| HumanMessage (content : string).

(** The argument of [createReviewComment]. *)
Record ReviewCommentRequest : Type := {
  rc_repo : string;
  rc_owner : string;
  rc_pull_number : N;
  rc_commit_id : option string;
  rc_path : string;
  rc_body : string;
  rc_subject_type : string
}.

(** What the program does to the outside world, in the order it does
    it. *)
Inductive Event : Type :=
| ModelCall (prompt : list ChatMessage)
| Sleep (millis : N)
| GetFilesForReview (owner repo : string) (pull_number : N) (patterns : list string)
| CodeReviewFor (file : PullRequestFile)
| CodeReviewForChunks (file : PullRequestFile)
| CreateReviewComment (request : ReviewCommentRequest)
| Info (message : string)
| SetFailed (message : string).

Definition History : Type := list Event.

Definition isModelCall (ev : Event) : bool :=
  match ev with
  | ModelCall _ => true
  | _ => false
  end.

(** How many times the model has been invoked so far. *)
Definition invocations (h : History) : nat := List.length (filter isModelCall h).

(** Performing a call: it is recorded, and answered by the outside
    world, which may look at everything that happened before. *)
Definition perform {A} (ev : Event) (answer : History -> Js.Error + A) : Thunk History A :=
  fun h => (answer h, h ++ [ev]).

(** ** The chat prompt of [CodeReviewServiceImpl] *)

Module Prompt.

Definition systemTemplateLines : list string :=
  [ "Act as an empathetic software engineer that's an expert in designing and developing web application softwares using Java, Springboot framwork and AppDynamics Integration (.yml), and adhering to best practices of software design and architecture.";
    "      You are also an expert in sumarizing the review comments in the form of a predefined report for each and every coding guideline." ].

Definition humanTemplateLines : list string :=
  [ "Your task is to review a Pull Request. You will receive a git diff.";
    "    Review it and suggest any improvements in code quality, maintainability, readability, performance, security, etc.";
    "    Identify any potential bugs or security vulnerabilities. After reviewing the code, provide a summary report for each coding guideline if it was followed in the code or not.";
    "    You can refer the following example for a summary report having columns - Code Review checklist, Implemented and Summarization.";
    "    For the Summarization column, add a note on the overall coverage of the respective guideline in the given file.";
    "    Also, provide the report in a tabular format against coding guidelines, at the end of each file in the git diff:";
    "    Example:  Code review checklist	Implemented Summarization";
    "SOLID principles	No";
    "Java Coding Guidelines:";
    "Naming Conventions	No";
    "Indentation and Formatting	No";
    "Comments and Documentation	Yes";
    "Include remaining points here from Java coding guidelines";
    "Springboot Coding Guidelines:";
    "Project Structure:	Yes";
    "Dependency Injection	Yes";
    "RESTful APIs	No";
    "Exception Handling	No";
    "Include remaining points here from Spring boot coding guidelines";
    EmptyString;
    "Verify that the code adheres to the following design patterns and coding guidelines for Java, Springboot and AppDynamics Integration (.yml), and suggest code improvements accordingly.";
    "-Design Patterns:";
    "1. You have to check if the code follows SOLID principles (Single Responsibility, Open/Closed, Liskov Substitution, Interface Segregation, Dependency Inversion). If not used, suggest how to refactor the code to follow these principles.";
    "-Java Coding Guidelines:";
    "1.Naming Conventions:";
    "a.Class names should be nouns and start with an uppercase letter (e.g., Car, UserService).";
    "b.Method and variable names should be verbs or nouns and start with a lowercase letter (e.g., getUser(), firstName).";
    "c.Constants should be all uppercase with underscores separating words (e.g., MAX_SIZE).";
    "2.Indentation and Formatting:";
    "a.Use 4 spaces for indentation.";
    "b.Use braces even for single-line statements in control structures.";
    "c.Limit lines to 80-120 characters to improve readability.";
    "3.Comments and Documentation:";
    "a.Verify that the Javadoc style comments are used for documenting classes, methods, and fields.";
    "b.Write clear and concise comments to explain complex algorithms or business logic.";
    "4.Exception Handling:";
    "a.Use specific exception types rather than catching Exception.";
    "b.Handle exceptions appropriately, either by logging or throwing further up the call stack.";
    "5.Avoid Magic Numbers and Strings:";
    "a.Verify constants are used instead of hardcoding values.";
    "b.Verify that strings and numbers are defined as constants at the beginning of the class.";
    "6.Immutable Objects:";
    "a.Prefer immutability whenever possible.";
    "b. Verify to make fields final if they should not change after object creation.";
    "7.Use Interfaces and Abstract Classes:";
    "a.Verify the use of interfaces for defining contracts and abstract classes for code reuse.";
    "b.Prefer composition over inheritance.";
    "8.Concurrency:";
    "a.Use thread-safe classes and synchronization mechanisms when dealing with concurrent operations.";
    "b.Utilize Java's concurrent utilities like ExecutorService and ConcurrentHashMap.";
    "-Spring Boot Coding Guidelines:";
    "1.Dependency Injection:";
    "a.Verify the use of constructor injection wherever possible for better testability and immutability.";
    "b.Avoid field injection, prefer setter injection only when required.";
    "2.RESTful APIs:";
    "a. Verify the RESTful principles are followed for designing APIs.";
    "b. Validate the use of appropriate HTTP methods (GET, POST, PUT, DELETE) for CRUD operations.";
    "3.Exception Handling:";
    "a.Verify that @ControllerAdvice is used for global exception handling.";
    "b.Customize error responses using @ExceptionHandler.";
    "4.Security:";
    "a. Verify that the best practices for password hashing and session management are used.";
    "5.Testing:";
    "a.Write unit tests for business logic using frameworks like JUnit and Mockito.";
    "b.Use Spring Boot's testing annotations (@SpringBootTest, @WebMvcTest, etc.) for integration testing.";
    "6.Logging:";
    "a.Use a logging framework like Log4j or Logback.";
    "b.Log meaningful messages with appropriate log levels.";
    "7.Performance:";
    "a.Verify that the database queries are optimized using Spring Data JPA's query methods or custom queries.";
    "b.Cache data using Spring's caching abstraction (@Cacheable, @CacheEvict).";
    "8.Documentation:";
    "a.Document API endpoints using Swagger or Spring REST Docs.";
    "b.Include clear descriptions, request/response examples, and error handling details.";
    "- AppDynamics Integration (.yml) Coding Guidelines:";
    "a.Verify the parameters - appdAgentAppName , appdAgentTierName, appdPlan are defined.";
    "b.Verify that the name for appdAgentTierName follows the naming convention as:  Application name-Application EAI number (for example: FXO-Document-Metadata-Service-3538226 where FXO-Document-Metadata-Service is the application name and 3538226 is the EAI number)";
    EmptyString;
    "Write your reply and examples in GitHub Markdown format.";
    "The programming language in the git diff is {lang}.";
    EmptyString;
    "    git diff to review";
    EmptyString;
    "    {diff}" ].

Definition systemTemplate : string := Js.unlines systemTemplateLines.

Definition humanTemplate : string := Js.unlines humanTemplateLines.

(** The values of a [ChainInput] by key, as strings. *)
Definition lookup (values : ChainInput) (name : string) : option string :=
  if String.eqb name "lang" then Some (lang values)
  else if String.eqb name "diff" then Some (Js.string_of (diff values))
  else None.

(** [chatPrompt.formatMessages(values)]: the system message, then the
    human message. *)
Definition formatMessages (values : ChainInput) : Js.Error + list ChatMessage :=
  match FString.interpolateFString systemTemplate (lookup values) with
  | inl e => inl e
  | inr system =>
      match FString.interpolateFString humanTemplate (lookup values) with
      | inl e => inl e
      | inr human => inr [SystemMessage system; HumanMessage human]
      end
  end.

(** The nodes of the two templates, computed once. *)
Definition systemNodes : Js.Error + list FString.ParsedFStringNode :=
  Eval vm_compute in FString.parseFString systemTemplate.

Definition humanNodes : Js.Error + list FString.ParsedFStringNode :=
  Eval vm_compute in FString.parseFString humanTemplate.

(** The fixed text of the human template before [{lang}] and between
    [{lang}] and [{diff}]. *)
Definition humanParts : string * string :=
  match humanNodes with
  | inr [FString.NodeLiteral before; _; FString.NodeLiteral between; _] => (before, between)
  | _ => (EmptyString, EmptyString)
  end.

Definition beforeLang : string := fst humanParts.
Definition betweenLangAndDiff : string := snd humanParts.

(** The prompt rendered for a language label and a diff text. *)
Definition rendered (language diffText : string) : list ChatMessage :=
  [ SystemMessage systemTemplate;
    HumanMessage (beforeLang ++ language ++ betweenLangAndDiff ++ diffText)%string ].

Definition braceFree (s : string) : bool :=
  negb (Js.occurs "{" s) && negb (Js.occurs "}" s).

End Prompt.

(** ** The review generator: [CodeReviewServiceImpl] *)

Module CodeReview.

(** Reading [.chunks] of the missing first entry of an empty
    [parseDiff] result. *)
Definition undefinedChunks : Js.Error :=
  "TypeError: Cannot read properties of undefined (reading 'chunks')".

(** Modelled from the spec: the retry schedule that the missing
    [src/httpUtils.ts] builds; by section 4.3 it fixes the number of
    attempts, the base delay, and the jitter added to each delay. *)
Record Schedule : Type := {
  maxAttempts : nat;
  firstDelay : N;
  jitterAfter : nat -> N
}.

(** Modelled from the spec: [RetryState] of section 3, the attempt
    number and the current delay, fresh for every wrapped call. *)
Record RetryState : Type := {
  attempt : nat;
  delay : N
}.

Section Impl.

(** [LanguageDetectionService.detectLanguage]: a lookup by file name,
    [NoSuchElementException] when it finds nothing. *)
Variable detectLanguage : string -> option string.

(** [parseDiff] of the parse-diff package: the file entries of a diff
    text. *)
Variable parseDiff : option string -> list FileDiff.

(** The model: its answer to a prompt on its [n]-th invocation,
    counting from 0; [inl] is a rejected call. *)
Variable llm : nat -> list ChatMessage -> Js.Error + string.

(** The base delay of the backoff in milliseconds, and the random
    jitter drawn after each attempt. *)
Variable base : N.
Variable jitter : nat -> N.

(** [this.chain.call(values)]: the prompt is rendered and sent to the
    model; the chain resolves with the model's text. *)
Definition chain_call (values : ChainInput) : Thunk History ChainValues :=
  match Prompt.formatMessages values with
  | inl thrown => fun h => (inl thrown, h)
  | inr prompt =>
      perform (ModelCall prompt)
        (fun h =>
           match llm (invocations h) prompt with
           | inr answer => inr {| text := answer |}
           | inl rejected => inl rejected
           end)
  end.

(** Modelled from the spec: [exponentialBackoffWithJitter] of
    [src/httpUtils.ts] is missing; by section 4.3 the policy for
    [maxAttempts = N] starts from a base delay that doubles with the
    attempts and adds a random jitter term. *)
Definition exponentialBackoffWithJitter (retries : nat) : Schedule :=
  {| maxAttempts := retries; firstDelay := base; jitterAfter := jitter |}.

(** Modelled from the spec: the loop of the Retry Policy of section
    4.3, which the missing [src/httpUtils.ts] configures.  The
    operation is attempted at once; on a failure with attempts left
    ([budget] counts them) the policy sleeps for the current delay
    plus jitter, doubles the delay, increments the attempt and
    retries; the failure of the final attempt is propagated
    unchanged; a success returns at once.  A defect is not retried. *)
Fixpoint retryLoop {A} (policy : Schedule) (operation : Eff History A)
    (budget : nat) (st : RetryState) : Eff History A :=
  fun h =>
    match operation h with
    | (Failure (Fail e), h') =>
        match budget with
        | O => (Failure (Fail e), h')
        | S budget' =>
            retryLoop policy operation budget'
              {| attempt := S (attempt st); delay := 2 * delay st |}
              (h' ++ [Sleep (delay st + jitterAfter policy (attempt st))])
        end
    | other => other
    end.

(** Modelled from the spec: [Effect.retry] under the policy above,
    [withRetry(operation, maxAttempts)] of section 4.3. *)
Definition retry {A} (self : Eff History A) (policy : Schedule) : Eff History A :=
  retryLoop policy self (maxAttempts policy - 1)
    {| attempt := 1; delay := firstDelay policy |}.

(** The language of a file, through the detection service. *)
Definition programmingLanguageOf (name : string) : Eff History string :=
  fromOption (detectLanguage name).

Definition codeReviewFor (file : PullRequestFile) : Eff History ChainValues :=
  flatMap (programmingLanguageOf (filename file))
    (fun lang =>
       retry
         (tryPromise (chain_call {| lang := lang; diff := patch file |}))
         (exponentialBackoffWithJitter 3)).

Definition codeReviewForChunks (file : PullRequestFile)
  : Eff History (list ChainValues) :=
  let programmingLanguage := programmingLanguageOf (filename file) in
  let fileDiff := sync (returns (nth_error (parseDiff (patch file)) 0)) in
  flatMap (all2 programmingLanguage fileDiff)
    (fun '(lang, fd) =>
       match fd with
       | None => die undefinedChunks
       | Some fd =>
           all (List.map
                  (fun chunk =>
                     tryPromise
                       (chain_call {| lang := lang; diff := Some (content chunk) |}))
                  (chunks fd))
       end).

End Impl.

End CodeReview.

(** ** The orchestrator: [run] of [src/main.ts] *)

Module Main.

(** The service interfaces behind the tags [CodeReviewService] and
    [PullRequestService]. *)
Record CodeReviewService : Type := {
  codeReviewFor : PullRequestFile -> Eff History ChainValues;
  codeReviewForChunks : PullRequestFile -> Eff History (list ChainValues)
}.

Record PullRequestService : Type := {
  getFilesForReview :
    string -> string -> N -> list string -> Eff History (list PullRequestFile);
  createReviewComment : ReviewCommentRequest -> Eff History unit
}.

(** [github.context]: the event name, the repository, and of the
    payload its [number] and [pull_request.head.sha]. *)
Record Context : Type := {
  eventName : string;
  owner : string;
  repo : string;
  payload_number : N;
  payload_head_sha : option string
}.

(** [core.info] and [core.setFailed] of the hosting environment. *)
Definition core_info (message : string) : Thunk History unit :=
  perform (Info message) (fun _ => inr tt).

Definition core_setFailed (message : string) (h : History) : History :=
  h ++ [SetFailed message].

(** Reading [.head] of a payload without [pull_request]. *)
Definition undefinedHead : Js.Error :=
  "TypeError: Cannot read properties of undefined (reading 'head')".

Definition hasPatch (file : PullRequestFile) : bool :=
  match patch file with
  | Some _ => true
  | None => false
  end.

(** [CodeReviewServiceLive] of [initializeServices]: the tag is served
    by [CodeReviewServiceImpl] over the model. *)
Definition CodeReviewServiceLive
    (detectLanguage : string -> option string)
    (parseDiff : option string -> list FileDiff)
    (llm : nat -> list ChatMessage -> Js.Error + string)
    (base : N) (jitter : nat -> N) : CodeReviewService :=
  {| codeReviewFor := CodeReview.codeReviewFor detectLanguage llm base jitter;
     codeReviewForChunks := CodeReview.codeReviewForChunks detectLanguage parseDiff llm |}.

Section Run.

(** The resolved [exclude_files] input of the action. *)
Variable exclude_files : string.

Variable context : Context.

(** The services provided by [MainLive]. *)
Variable codeReviewService : CodeReviewService.
Variable pullRequestService : PullRequestService.

(** [Cause.toString] of the effect library. *)
Variable causeToString : Cause -> string.

Definition infoMessage (head_sha : string) : string :=
  ("repoName: " ++ repo context
     ++ " pull_number: " ++ Js.string_of_N (payload_number context)
     ++ " owner: " ++ owner context
     ++ " sha: " ++ head_sha)%string.

Definition excludeFilePatterns : Eff History (list string) :=
  map
    (tap (sync (returns (payload_head_sha context)))
       (fun pullRequestPayload =>
          sync
            (match pullRequestPayload with
             | Some head_sha => core_info (infoMessage head_sha)
             | None => fun h => (inl undefinedHead, h)
             end)))
    (fun _ => List.map Js.trim (Js.split "," exclude_files)).

(** The request built for the review of a file. *)
Definition reviewComment (file : PullRequestFile) (res : ChainValues)
  : ReviewCommentRequest :=
  {| rc_repo := repo context;
     rc_owner := owner context;
     rc_pull_number := payload_number context;
     rc_commit_id := payload_head_sha context;
     rc_path := filename file;
     rc_body := text res;
     rc_subject_type := "file" |}.

(** The body of [Effect.forEach]: review one file, post the review. *)
Definition reviewAndComment (file : PullRequestFile) : Eff History unit :=
  flatMap (codeReviewFor codeReviewService file)
    (fun res => createReviewComment pullRequestService (reviewComment file res)).

(** The effect [a] of the [pull_request] branch. *)
Definition pullRequestReview : Eff History (list unit) :=
  flatMap excludeFilePatterns
    (fun filePattens =>
       flatMap
         (flatMap
            (getFilesForReview pullRequestService
               (owner context) (repo context) (payload_number context) filePattens)
            (fun files => sync (returns (filter hasPatch files))))
         (fun files => forEach files reviewAndComment)).

Definition notPullRequest (name : string) : string :=
  ("This action only works on pull_request events. Got: " ++ name)%string.

(** [program]: the match on the event name; the value of the
    [pull_request] branch is not used. *)
Definition program : Eff History unit :=
  if String.eqb (eventName context) "pull_request"
  then map pullRequestReview (fun _ => tt)
  else sync (fun h => (inr tt, core_setFailed (notPullRequest (eventName context)) h)).

(** [run]: the program is run to its exit; a failed exit marks the
    hosting environment failed with the rendered cause. *)
Definition run (h : History) : History :=
  match program h with
  | (Failure cause, h') => core_setFailed (causeToString cause) h'
  | (Success _, h') => h'
  end.

End Run.

(** Services seen from the orchestrator: a call through a tag is
    recorded and answered by the outside world, which may look at the
    history so far. *)
Section Traced.

Variable reviewAnswer : History -> PullRequestFile -> Exit ChainValues.
Variable chunksAnswer : History -> PullRequestFile -> Exit (list ChainValues).
Variable filesAnswer :
  History -> string -> string -> N -> list string -> Exit (list PullRequestFile).
Variable commentAnswer : History -> ReviewCommentRequest -> Exit unit.

Definition tracedCodeReviewService : CodeReviewService :=
  {| codeReviewFor := fun file h => (reviewAnswer h file, h ++ [CodeReviewFor file]);
     codeReviewForChunks := fun file h =>
       (chunksAnswer h file, h ++ [CodeReviewForChunks file]) |}.

Definition tracedPullRequestService : PullRequestService :=
  {| getFilesForReview := fun owner repo number patterns h =>
       (filesAnswer h owner repo number patterns,
        h ++ [GetFilesForReview owner repo number patterns]);
     createReviewComment := fun request h =>
       (commentAnswer h request, h ++ [CreateReviewComment request]) |}.

End Traced.

End Main.

(** ** A pull request to run the pipeline on *)

Module Scenario.

Definition fooPatch : string := "@@ -1 +1 @@ -int a; +int b; @@ -9 +9 @@ -run(); +start();".

Definition foo : PullRequestFile := {| filename := "Foo.java"; patch := Some fooPatch |}.

Definition bar : PullRequestFile := {| filename := "Bar.java"; patch := Some "@@ -3 +3 @@ -x +y" |}.

Definition baz : PullRequestFile := {| filename := "Baz.java"; patch := Some "@@ -5 +5 @@ -p +q" |}.

Definition logo : PullRequestFile := {| filename := "logo.png"; patch := None |}.

Definition blank : PullRequestFile := {| filename := "Blank.java"; patch := Some EmptyString |}.

Definition detectLanguage (name : string) : option string :=
  if String.eqb name "logo.png" then None else Some "Java".

Definition firstHunk : Chunk := {| content := "@@ -1 +1 @@ -int a; +int b;" |}.

Definition secondHunk : Chunk := {| content := "@@ -9 +9 @@ -run(); +start();" |}.

Definition strayHunk : Chunk := {| content := "@@ -2 +2 @@ -old +new" |}.

Definition fooDiff : FileDiff := {| chunks := [firstHunk; secondHunk] |}.

Definition strayDiff : FileDiff := {| chunks := [strayHunk] |}.

(** A diff parser that knows the patch of [foo], and reads it as two
    file entries. *)
Definition parseDiff (input : option string) : list FileDiff :=
  match input with
  | Some text => if String.eqb text fooPatch then [fooDiff; strayDiff] else []
  | None => []
  end.

(** Models: one rejects twice and then answers, one rejects every call,
    one answers every call, one answers its first call only. *)
Definition failsTwice (n : nat) (_ : list ChatMessage) : Js.Error + string :=
  match n with
  | 0 => inl "429 Too Many Requests"
  | 1 => inl "503 Service Unavailable"
  | _ => inr "LGTM"
  end.

Definition alwaysRejects (n : nat) (_ : list ChatMessage) : Js.Error + string :=
  match n with
  | 0 => inl "timeout on attempt 1"
  | 1 => inl "timeout on attempt 2"
  | _ => inl "timeout on attempt 3"
  end.

Definition answersAll (n : nat) (_ : list ChatMessage) : Js.Error + string :=
  match n with
  | 0 => inr "review of the first hunk"
  | _ => inr "review of the second hunk"
  end.

Definition answersOnce (n : nat) (_ : list ChatMessage) : Js.Error + string :=
  match n with
  | 0 => inr "review of the first hunk"
  | _ => inl "quota exceeded"
  end.

Definition noJitter (_ : nat) : N := 0%N.

Definition pullRequest : Main.Context :=
  {| Main.eventName := "pull_request";
     Main.owner := "acme";
     Main.repo := "shop";
     Main.payload_number := 7%N;
     Main.payload_head_sha := Some "c0ffee" |}.

Definition push : Main.Context :=
  {| Main.eventName := "push";
     Main.owner := "acme";
     Main.repo := "shop";
     Main.payload_number := 0%N;
     Main.payload_head_sha := None |}.

(** The listing answers with four files; the review of [foo] fails,
    the others are reviewed; every comment is accepted. *)
Definition filesAnswer (_ : History) (_ _ : string) (_ : N) (_ : list string)
  : Exit (list PullRequestFile) :=
  Success [logo; bar; foo; baz].

Definition reviewAnswer (_ : History) (file : PullRequestFile) : Exit ChainValues :=
  if String.eqb (filename file) "Foo.java"
  then Failure (Fail (UnknownException "timeout on attempt 3"))
  else Success {| text := "LGTM" |}.

Definition chunksAnswer (_ : History) (_ : PullRequestFile) : Exit (list ChainValues) :=
  Success [].

Definition commentAnswer (_ : History) (_ : ReviewCommentRequest) : Exit unit :=
  Success tt.

Definition causeToString (cause : Cause) : string :=
  match cause with
  | Fail NoSuchElementException => "NoSuchElementException"
  | Fail (UnknownException error) => ("UnknownException: " ++ error)%string
  | Die defect => defect
  end.

End Scenario.

(** ** The chat prompt of the earlier [CodeReviewServiceImpl]

    The repository holds an earlier text of
    [src/services/codeReviewService.ts]; its methods are the same, its
    [chatPrompt] has another rubric. *)

Module EarlierPrompt.

Definition systemTemplateLines : list string :=
  [ "Act as an empathetic software engineer that's an expert in designing and developing web application softwares using Java and Springboot framwork, and adhering to best practices of software design and architecture." ].

Definition humanTemplateLines : list string :=
  [ "Your task is to review a Pull Request. You will receive a git diff.";
    "    Review it and suggest any improvements in code quality, maintainability, readability, performance, security, etc.";
    "    Identify any potential bugs or security vulnerabilities.";
    "    Check it adheres to the following design patterns and coding guidelines for both Java and Springboot.";
    "   -Design Patterns:";
    "1.Verify that the design patterns like Singleton, Factory, Builder, Strategy and Repository are used where appropriate.";
    "2. If not used, suggest the appropriate design pattern to improve the code.";
    "3. Check if the code follows SOLID principles (Single Responsibility, Open/Closed, Liskov Substitution, Interface Segregation, Dependency Inversion).";
    "    -Java Coding Guidelines:";
    "1.Naming Conventions:";
    "a.Class names should be nouns and start with an uppercase letter (e.g., Car, UserService).";
    "b.Method and variable names should be verbs or nouns and start with a lowercase letter (e.g., getUser(), firstName).";
    "c.Constants should be all uppercase with underscores separating words (e.g., MAX_SIZE).";
    "2.Indentation and Formatting:";
    "a.Use 4 spaces for indentation.";
    "b.Use braces even for single-line statements in control structures.";
    "c.Limit lines to 80-120 characters to improve readability.";
    "3.Comments and Documentation:";
    "a.Use Javadoc style comments for documenting classes, methods, and fields.";
    "b.Write clear and concise comments to explain complex algorithms or business logic.";
    "4.Exception Handling:";
    "a.Use specific exception types rather than catching Exception.";
    "b.Handle exceptions appropriately, either by logging or throwing further up the call stack.";
    "5.Avoid Magic Numbers and Strings:";
    "a.Use constants instead of hardcoding values.";
    "b.Define strings and numbers as constants at the beginning of the class.";
    "6.Immutable Objects:";
    "a.Prefer immutability whenever possible.";
    "b.Make fields final if they should not change after object creation.";
    "7.Use Interfaces and Abstract Classes:";
    "a.Use interfaces for defining contracts and abstract classes for code reuse.";
    "b.Prefer composition over inheritance.";
    "8.Concurrency:";
    "a.Use thread-safe classes and synchronization mechanisms when dealing with concurrent operations.";
    "b.Utilize Java's concurrent utilities like ExecutorService and ConcurrentHashMap.";
    "-Spring Boot Coding Guidelines:";
    "1.Project Structure:";
    "a.Organize classes into packages based on their functionality.";
    "b.Follow the standard Maven or Gradle project structure.";
    "2.Dependency Injection:";
    "a.Use constructor injection wherever possible for better testability and immutability.";
    "b.Avoid field injection, prefer setter injection only when required.";
    "3.RESTful APIs:";
    "a.Follow RESTful principles for designing APIs.";
    "b.Use appropriate HTTP methods (GET, POST, PUT, DELETE) for CRUD operations.";
    "4.Exception Handling:";
    "a.Use @ControllerAdvice for global exception handling.";
    "b.Customize error responses using @ExceptionHandler.";
    "5.Security:";
    "a.Use best practices like password hashing and session management.";
    "6.Testing:";
    "a.Write unit tests for business logic using frameworks like JUnit and Mockito.";
    "b.Use Spring Boot's testing annotations (@SpringBootTest, @WebMvcTest, etc.) for integration testing.";
    "7.Logging:";
    "a.Use a logging framework like Log4j or Logback.";
    "b.Log meaningful messages with appropriate log levels.";
    "8.Performance:";
    "a.Optimize database queries using Spring Data JPA's query methods or custom queries.";
    "b.Cache data using Spring's caching abstraction (@Cacheable, @CacheEvict).";
    "9.Documentation:";
    "a.Document API endpoints using Swagger or Spring REST Docs.";
    "b.Include clear descriptions, request/response examples, and error handling details.";
    "10.External Configurations:";
    "a.Externalize configuration using application properties or YAML files.";
    "b.Avoid hardcoding environment-specific values.";
    EmptyString;
    "Write your reply and examples in GitHub Markdown format.";
    "The programming language in the git diff is {lang}.";
    EmptyString;
    "    git diff to review";
    EmptyString;
    "    {diff}" ].

Definition systemTemplate : string := Js.unlines systemTemplateLines.

Definition humanTemplate : string := Js.unlines humanTemplateLines.

(** [chatPrompt.formatMessages(values)] *)
Definition formatMessages (values : ChainInput) : Js.Error + list ChatMessage :=
  match FString.interpolateFString systemTemplate (Prompt.lookup values) with
  | inl e => inl e
  | inr system =>
      match FString.interpolateFString humanTemplate (Prompt.lookup values) with
      | inl e => inl e
      | inr human => inr [SystemMessage system; HumanMessage human]
      end
  end.

Definition humanNodes : Js.Error + list FString.ParsedFStringNode :=
  Eval vm_compute in FString.parseFString humanTemplate.

(** The fixed text of the human template before [{lang}] and between
    [{lang}] and [{diff}]. *)
Definition humanParts : string * string :=
  match humanNodes with
  | inr [FString.NodeLiteral before; _; FString.NodeLiteral between; _] => (before, between)
  | _ => (EmptyString, EmptyString)
  end.

Definition beforeLang : string := fst humanParts.
Definition betweenLangAndDiff : string := snd humanParts.

End EarlierPrompt.

(** ** A patch as the hosting service sends it

    One hunk: its header line, then the changed lines.  parse-diff
    keeps the header line as the [content] of the chunk and puts the
    changed lines into its [changes], which the review generator does
    not read. *)

Module Hunks.

Definition header : string := "@@ -1 +1 @@".

Definition removed : string := "-int a;".

Definition added : string := "+int b;".

Definition patchText : string :=
  (header ++ Js.newline ++ removed ++ Js.newline ++ added)%string.

Definition file : PullRequestFile :=
  {| filename := "Foo.java"; patch := Some patchText |}.

(** The result of parse-diff on [patchText]: one entry with one chunk,
    whose [content] is the header line. *)
Definition parseDiff (input : option string) : list FileDiff :=
  match input with
  | Some text =>
      if String.eqb text patchText
      then [ {| chunks := [ {| content := header |} ] |} ]
      else []
  | None => []
  end.

(** A model that answers every call. *)
Definition answering (_ : nat) (_ : list ChatMessage) : Js.Error + string :=
  inr "LGTM".

End Hunks.

(** * Properties *)

(** ** Rendering of the prompt *)

Lemma append_empty_r (s : string) : (s ++ EmptyString)%string = s.
Proof.
  induction s as [|c s IH]; simpl; [reflexivity | now rewrite IH].
Qed.

Lemma append_assoc (s t u : string) : ((s ++ t) ++ u)%string = (s ++ t ++ u)%string.
Proof.
  induction s as [|c s IH]; simpl; [reflexivity | now rewrite IH].
Qed.

Lemma parse_systemTemplate :
  FString.parseFString Prompt.systemTemplate
  = inr [FString.NodeLiteral Prompt.systemTemplate].
Proof. vm_compute. reflexivity. Qed.

Lemma parse_humanTemplate :
  FString.parseFString Prompt.humanTemplate
  = inr [ FString.NodeLiteral Prompt.beforeLang; FString.NodeVariable "lang";
          FString.NodeLiteral Prompt.betweenLangAndDiff; FString.NodeVariable "diff" ].
Proof. vm_compute. reflexivity. Qed.

Lemma interpolate_two_variables lookup before x between y vx vy :
  lookup x = Some vx ->
  lookup y = Some vy ->
  FString.interpolate lookup
    [ FString.NodeLiteral before; FString.NodeVariable x;
      FString.NodeLiteral between; FString.NodeVariable y ] EmptyString
  = inr (before ++ vx ++ between ++ vy)%string.
Proof.
  intros Hx Hy. cbn [FString.interpolate]. rewrite Hx, Hy.
  cbn [append]. now rewrite !append_assoc.
Qed.

Lemma formatMessages_rendered (values : ChainInput) :
  Prompt.formatMessages values
  = inr (Prompt.rendered (lang values) (Js.string_of (diff values))).
Proof.
  unfold Prompt.formatMessages, FString.interpolateFString.
  rewrite parse_systemTemplate, parse_humanTemplate.
  rewrite (interpolate_two_variables (Prompt.lookup values) _ _ _ _
             (lang values) (Js.string_of (diff values)))
    by reflexivity.
  reflexivity.
Qed.

(** ** Histories *)

Lemma in_firstn {A} (k : nat) (l : list A) (x : A) :
  In x (firstn k l) -> In x l.
Proof.
  revert l. induction k as [|k IH]; intros [|y l]; cbn; try tauto.
  intros [Heq|Hin]; [now left | right; now apply IH].
Qed.

Lemma invocations_app (h t : History) :
  invocations (h ++ t) = invocations h + invocations t.
Proof.
  unfold invocations. now rewrite filter_app, length_app.
Qed.

Lemma invocations_model_call (h : History) prompt :
  invocations (h ++ [ModelCall prompt]) = S (invocations h).
Proof. rewrite invocations_app. cbn. lia. Qed.

Lemma invocations_sleep (h : History) millis :
  invocations (h ++ [Sleep millis]) = invocations h.
Proof. rewrite invocations_app. cbn. lia. Qed.

(** ** One attempt of the model call *)

Section ReviewGenerator.

Variable detectLanguage : string -> option string.
Variable parseDiff : option string -> list FileDiff.
Variable llm : nat -> list ChatMessage -> Js.Error + string.
Variable base : N.
Variable jitter : nat -> N.

Let modelCall (values : ChainInput) : Eff History ChainValues :=
  tryPromise (CodeReview.chain_call llm values).

Let policy : CodeReview.Schedule :=
  CodeReview.exponentialBackoffWithJitter base jitter 3.

Lemma modelCall_step (values : ChainInput) (h : History) :
  let prompt := Prompt.rendered (lang values) (Js.string_of (diff values)) in
  modelCall values h
  = (match llm (invocations h) prompt with
     | inr reply => Success {| text := reply |}
     | inl rejected => Failure (Fail (UnknownException rejected))
     end, h ++ [ModelCall prompt]).
Proof.
  unfold modelCall, tryPromise, CodeReview.chain_call.
  rewrite formatMessages_rendered. unfold perform.
  destruct (llm _ _); reflexivity.
Qed.

Lemma modelCall_rejected values h rejected :
  llm (invocations h) (Prompt.rendered (lang values) (Js.string_of (diff values)))
  = inl rejected ->
  modelCall values h
  = (Failure (Fail (UnknownException rejected)),
     h ++ [ModelCall (Prompt.rendered (lang values) (Js.string_of (diff values)))]).
Proof. intros H. rewrite modelCall_step. cbv zeta. now rewrite H. Qed.

Lemma modelCall_answered values h reply :
  llm (invocations h) (Prompt.rendered (lang values) (Js.string_of (diff values)))
  = inr reply ->
  modelCall values h
  = (Success {| text := reply |},
     h ++ [ModelCall (Prompt.rendered (lang values) (Js.string_of (diff values)))]).
Proof. intros H. rewrite modelCall_step. cbv zeta. now rewrite H. Qed.

(** ** The retry loop, for any budget *)

Section Retry.

Variable values : ChainInput.

Let prompt : list ChatMessage :=
  Prompt.rendered (lang values) (Js.string_of (diff values)).

(** A call rejected on every attempt is made once per attempt, and
    the last rejection is what the loop fails with. *)
Lemma retryLoop_always_rejected (budget : nat) :
  forall (st : CodeReview.RetryState) (h : History),
    (forall i, i <= budget -> exists e, llm (invocations h + i) prompt = inl e) ->
    exists last t,
      llm (invocations h + budget) prompt = inl last
      /\ CodeReview.retryLoop policy (modelCall values) budget st h
         = (Failure (Fail (UnknownException last)), h ++ t)
      /\ filter isModelCall t = repeat (ModelCall prompt) (S budget).
Proof.
  induction budget as [|budget IH]; intros st h Hall.
  - destruct (Hall 0 (le_n 0)) as [e He]. rewrite Nat.add_0_r in He.
    exists e, [ModelCall prompt]. rewrite Nat.add_0_r. split; [exact He|].
    cbn [CodeReview.retryLoop]. rewrite (modelCall_rejected values h e He).
    split; reflexivity.
  - destruct (Hall 0 (Nat.le_0_l _)) as [e He]. rewrite Nat.add_0_r in He.
    cbn [CodeReview.retryLoop]. rewrite (modelCall_rejected values h e He).
    fold prompt.
    set (pause := Sleep _).
    destruct (IH {| CodeReview.attempt := S (CodeReview.attempt st);
                    CodeReview.delay := 2 * CodeReview.delay st |}
                ((h ++ [ModelCall prompt]) ++ [pause]))
      as (last & t & Hlast & Hrun & Hcalls).
    { intros i Hi. unfold pause. rewrite invocations_sleep, invocations_model_call.
      destruct (Hall (S i)) as [e' He']; [lia|].
      exists e'. now replace (S (invocations h) + i) with (invocations h + S i) by lia. }
    unfold pause in Hlast. rewrite invocations_sleep, invocations_model_call in Hlast.
    exists last, (ModelCall prompt :: pause :: t). split.
    { now replace (invocations h + S budget) with (S (invocations h) + budget) by lia. }
    split.
    + rewrite Hrun. now rewrite <- !app_assoc.
    + unfold pause. cbn [filter isModelCall]. rewrite Hcalls. reflexivity.
Qed.

(** A call first answered on attempt [S j] is made [S j] times, and
    that answer is what the loop returns. *)
Lemma retryLoop_first_answer (j : nat) :
  forall (budget : nat) (st : CodeReview.RetryState) (h : History) (reply : string),
    j <= budget ->
    (forall i, i < j -> exists e, llm (invocations h + i) prompt = inl e) ->
    llm (invocations h + j) prompt = inr reply ->
    exists t,
      CodeReview.retryLoop policy (modelCall values) budget st h
      = (Success {| text := reply |}, h ++ t)
      /\ filter isModelCall t = repeat (ModelCall prompt) (S j).
Proof.
  induction j as [|j IH]; intros budget st h reply Hle Hbefore Hreply.
  - rewrite Nat.add_0_r in Hreply. exists [ModelCall prompt].
    destruct budget; cbn [CodeReview.retryLoop];
      rewrite (modelCall_answered values h reply Hreply); split; reflexivity.
  - destruct budget as [|budget]; [lia|].
    destruct (Hbefore 0 (Nat.lt_0_succ _)) as [e He]. rewrite Nat.add_0_r in He.
    cbn [CodeReview.retryLoop]. rewrite (modelCall_rejected values h e He).
    fold prompt.
    set (pause := Sleep _).
    destruct (IH budget
                {| CodeReview.attempt := S (CodeReview.attempt st);
                   CodeReview.delay := 2 * CodeReview.delay st |}
                ((h ++ [ModelCall prompt]) ++ [pause]) reply)
      as (t & Hrun & Hcalls).
    { lia. }
    { intros i Hi. unfold pause. rewrite invocations_sleep, invocations_model_call.
      destruct (Hbefore (S i)) as [e' He']; [lia|].
      exists e'. now replace (S (invocations h) + i) with (invocations h + S i) by lia. }
    { unfold pause. rewrite invocations_sleep, invocations_model_call.
      now replace (S (invocations h) + j) with (invocations h + S j) by lia. }
    exists (ModelCall prompt :: pause :: t). split.
    + rewrite Hrun. now rewrite <- !app_assoc.
    + unfold pause. cbn [filter isModelCall]. rewrite Hcalls. reflexivity.
Qed.

End Retry.

(** ** Whole-file review *)

(** C1. In [codeReviewFor] the model call runs under the retry policy
    with attempt bound 3.  A call rejected on all three attempts is
    made exactly three times and the review fails with the third
    attempt's error; a call first answered on attempt [k <= 3] is made
    exactly [k] times and the review returns that answer. *)
Theorem codeReviewFor_retry_bound_three
    (file : PullRequestFile) (language : string) (h : History) :
  detectLanguage (filename file) = Some language ->
  let prompt := Prompt.rendered language (Js.string_of (patch file)) in
  ((forall i, i < 3 -> exists e, llm (invocations h + i) prompt = inl e) ->
   exists last t,
     llm (invocations h + 2) prompt = inl last
     /\ CodeReview.codeReviewFor detectLanguage llm base jitter file h
        = (Failure (Fail (UnknownException last)), h ++ t)
     /\ filter isModelCall t = repeat (ModelCall prompt) 3)
  /\
  (forall (k : nat) (reply : string),
     1 <= k <= 3 ->
     (forall i, i < k - 1 -> exists e, llm (invocations h + i) prompt = inl e) ->
     llm (invocations h + (k - 1)) prompt = inr reply ->
     exists t,
       CodeReview.codeReviewFor detectLanguage llm base jitter file h
       = (Success {| text := reply |}, h ++ t)
       /\ filter isModelCall t = repeat (ModelCall prompt) k).
Proof.
  intros Hlang prompt.
  assert (Hrun :
    CodeReview.codeReviewFor detectLanguage llm base jitter file h
    = CodeReview.retryLoop policy
        (modelCall {| lang := language; diff := patch file |}) 2
        {| CodeReview.attempt := 1; CodeReview.delay := base |} h).
  { unfold CodeReview.codeReviewFor, CodeReview.programmingLanguageOf, flatMap.
    rewrite Hlang. reflexivity. }
  rewrite Hrun. split.
  - intros Hall.
    apply (retryLoop_always_rejected {| lang := language; diff := patch file |} 2).
    intros i Hi. apply Hall. lia.
  - intros k reply Hk Hbefore Hreply.
    destruct k as [|j]; [lia|].
    replace (S j - 1) with j in * by lia.
    apply (retryLoop_first_answer {| lang := language; diff := patch file |} j);
      [lia | exact Hbefore | exact Hreply].
Qed.

(** ** Chunked review *)

Let chunkCall (language : string) (chunk : Chunk) : Eff History ChainValues :=
  modelCall {| lang := language; diff := Some (content chunk) |}.

Let chunkRequest (language : string) (chunk : Chunk) : Event :=
  ModelCall (Prompt.rendered language (content chunk)).

Lemma codeReviewForChunks_cases (file : PullRequestFile) (h : History) :
  CodeReview.codeReviewForChunks detectLanguage parseDiff llm file h
  = match detectLanguage (filename file) with
    | None => (Failure (Fail NoSuchElementException), h)
    | Some language =>
        match parseDiff (patch file) with
        | [] => (Failure (Die CodeReview.undefinedChunks), h)
        | fd :: _ => all (List.map (chunkCall language) (chunks fd)) h
        end
    end.
Proof.
  unfold CodeReview.codeReviewForChunks, CodeReview.programmingLanguageOf,
    flatMap, all2, map, sync, returns, fromOption, succeed, fail, die.
  destruct (detectLanguage (filename file)); [|reflexivity].
  destruct (parseDiff (patch file)); reflexivity.
Qed.

Lemma all_cons {A} (first : Eff History A) (rest : list (Eff History A)) (h : History) :
  all (first :: rest) h
  = match first h with
    | (Success a, h') =>
        match all rest h' with
        | (Success others, h'') => (Success (a :: others), h'')
        | (Failure c, h'') => (Failure c, h'')
        end
    | (Failure c, h') => (Failure c, h')
    end.
Proof.
  unfold all. cbn [forEach]. unfold flatMap at 1.
  destruct (first h) as [[a|c] h']; [|reflexivity].
  unfold map, flatMap, succeed.
  destruct (forEach rest (fun eff => eff) h') as [[others|c] h'']; reflexivity.
Qed.

(** Every chunk answered: one request per chunk, in order, and the
    answers in the same order. *)
Lemma all_chunks_answered (language : string) (cs : list Chunk) :
  forall (replies : list string) (h : History),
    List.length replies = List.length cs ->
    (forall i chunk reply,
       nth_error cs i = Some chunk ->
       nth_error replies i = Some reply ->
       llm (invocations h + i) (Prompt.rendered language (content chunk)) = inr reply) ->
    all (List.map (chunkCall language) cs) h
    = (Success (List.map (fun reply => {| text := reply |}) replies),
       h ++ List.map (chunkRequest language) cs).
Proof.
  induction cs as [|chunk cs IH]; intros replies h Hlen Hans.
  - destruct replies; [|discriminate]. cbn. now rewrite app_nil_r.
  - destruct replies as [|reply replies]; [discriminate|].
    cbn [List.map]. rewrite all_cons. unfold chunkCall at 1.
    rewrite (modelCall_answered _ h reply).
    2:{ specialize (Hans 0 chunk reply eq_refl eq_refl).
        now rewrite Nat.add_0_r in Hans. }
    cbn [lang diff Js.string_of].
    rewrite (IH replies).
    + unfold chunkRequest at 2. now rewrite <- app_assoc.
    + cbn in Hlen. lia.
    + intros i c r Hc Hr. rewrite invocations_model_call.
      replace (S (invocations h) + i) with (invocations h + S i) by lia.
      now apply Hans.
Qed.

(** The first rejected chunk: the chunks before it and the rejected
    one are requested once each, the later ones never. *)
Lemma all_chunks_first_rejection (language : string) (before : list Chunk) :
  forall (chunk : Chunk) (after : list Chunk) (replies : list string)
         (rejected : Js.Error) (h : History),
    List.length replies = List.length before ->
    (forall i c reply,
       nth_error before i = Some c ->
       nth_error replies i = Some reply ->
       llm (invocations h + i) (Prompt.rendered language (content c)) = inr reply) ->
    llm (invocations h + List.length before) (Prompt.rendered language (content chunk))
    = inl rejected ->
    all (List.map (chunkCall language) (before ++ chunk :: after)) h
    = (Failure (Fail (UnknownException rejected)),
       h ++ List.map (chunkRequest language) (before ++ [chunk])).
Proof.
  induction before as [|c before IH]; intros chunk after replies rejected h Hlen Hans Hrej.
  - cbn [app List.map]. rewrite all_cons. unfold chunkCall at 1.
    rewrite (modelCall_rejected _ h rejected).
    2:{ cbn [List.length] in Hrej. now rewrite Nat.add_0_r in Hrej. }
    reflexivity.
  - destruct replies as [|reply replies]; [discriminate|].
    cbn [app List.map]. rewrite all_cons. unfold chunkCall at 1.
    rewrite (modelCall_answered _ h reply).
    2:{ specialize (Hans 0 c reply eq_refl eq_refl).
        now rewrite Nat.add_0_r in Hans. }
    cbn [lang diff Js.string_of].
    rewrite (IH chunk after replies rejected).
    + unfold chunkRequest at 2. now rewrite <- app_assoc.
    + cbn in Hlen. lia.
    + intros i c' r Hc Hr. rewrite invocations_model_call.
      replace (S (invocations h) + i) with (invocations h + S i) by lia.
      now apply Hans.
    + rewrite invocations_model_call. cbn [List.length] in Hrej.
      now replace (S (invocations h) + List.length before)
        with (invocations h + S (List.length before)) by lia.
Qed.

(** Whatever the model answers, the requests made are those of a
    prefix of the chunks, in order. *)
Lemma all_chunks_requests (language : string) (cs : list Chunk) :
  forall h : History,
    exists k,
      k <= List.length cs
      /\ snd (all (List.map (chunkCall language) cs) h)
         = h ++ List.map (chunkRequest language) (firstn k cs).
Proof.
  induction cs as [|chunk cs IH]; intros h.
  - exists 0. split; [lia|]. cbn. now rewrite app_nil_r.
  - cbn [List.map]. rewrite all_cons. unfold chunkCall at 1.
    rewrite modelCall_step. cbv zeta. cbn [lang diff Js.string_of].
    destruct (llm _ _) as [rejected|reply].
    + exists 1. split; [cbn; lia|]. reflexivity.
    + destruct (IH (h ++ [ModelCall (Prompt.rendered language (content chunk))]))
        as (k & Hk & Hsnd).
      exists (S k). split; [cbn; lia|].
      destruct (all _ _) as [[others|c] h'']; cbn [snd] in *;
        rewrite Hsnd; cbn [firstn List.map]; unfold chunkRequest at 2;
        now rewrite <- app_assoc.
Qed.

(** C2. When the first parsed entry of a file's patch has [H] chunks
    and the model answers each request, [codeReviewForChunks] makes
    one request per chunk, in chunk order, and returns exactly the
    [H] answers, the [i]-th being the answer to the [i]-th chunk's
    request.  The calls are made one after the other, so no
    completion order can reorder them. *)
Theorem codeReviewForChunks_results_in_chunk_order
    (file : PullRequestFile) (language : string) (fd : FileDiff)
    (rest : list FileDiff) (replies : list string) (h : History) :
  detectLanguage (filename file) = Some language ->
  parseDiff (patch file) = fd :: rest ->
  List.length replies = List.length (chunks fd) ->
  (forall i chunk reply,
     nth_error (chunks fd) i = Some chunk ->
     nth_error replies i = Some reply ->
     llm (invocations h + i) (Prompt.rendered language (content chunk)) = inr reply) ->
  CodeReview.codeReviewForChunks detectLanguage parseDiff llm file h
  = (Success (List.map (fun reply => {| text := reply |}) replies),
     h ++ List.map (fun chunk => ModelCall (Prompt.rendered language (content chunk)))
            (chunks fd)).
Proof.
  intros Hlang Hparse Hlen Hans.
  rewrite codeReviewForChunks_cases, Hlang, Hparse.
  exact (all_chunks_answered language (chunks fd) replies h Hlen Hans).
Qed.

(** C9. In [codeReviewForChunks] a chunk's call is made once, without
    retry: when the chunks before it are answered and its own call is
    rejected, the whole review fails with that rejection, no list of
    the earlier answers is returned, and the history holds one
    request for each chunk up to the rejected one and nothing else. *)
Theorem codeReviewForChunks_fails_without_retry
    (file : PullRequestFile) (language : string) (fd : FileDiff)
    (rest : list FileDiff) (before : list Chunk) (chunk : Chunk)
    (after : list Chunk) (replies : list string) (rejected : Js.Error)
    (h : History) :
  detectLanguage (filename file) = Some language ->
  parseDiff (patch file) = fd :: rest ->
  chunks fd = before ++ chunk :: after ->
  List.length replies = List.length before ->
  (forall i c reply,
     nth_error before i = Some c ->
     nth_error replies i = Some reply ->
     llm (invocations h + i) (Prompt.rendered language (content c)) = inr reply) ->
  llm (invocations h + List.length before) (Prompt.rendered language (content chunk))
  = inl rejected ->
  CodeReview.codeReviewForChunks detectLanguage parseDiff llm file h
  = (Failure (Fail (UnknownException rejected)),
     h ++ List.map (fun c => ModelCall (Prompt.rendered language (content c)))
            (before ++ [chunk])).
Proof.
  intros Hlang Hparse Hchunks Hlen Hans Hrej.
  rewrite codeReviewForChunks_cases, Hlang, Hparse, Hchunks.
  exact (all_chunks_first_rejection language before chunk after replies rejected h
           Hlen Hans Hrej).
Qed.

Section EmptyPatch.

(** parse-diff returns no entry for an absent and for an empty
    input. *)
Hypothesis parseDiff_nothing :
  parseDiff None = [] /\ parseDiff (Some EmptyString) = [].

(** C3. For a file whose patch is absent or empty,
    [codeReviewForChunks] fails: with the defect of reading the
    chunks of the missing first entry when the language is
    detected, with the detection failure otherwise.  It never
    succeeds with an empty list, and the model is not called. *)
Theorem codeReviewForChunks_fails_on_empty_patch
    (file : PullRequestFile) (h : History) :
  patch file = None \/ patch file = Some EmptyString ->
  CodeReview.codeReviewForChunks detectLanguage parseDiff llm file h
  = (Failure
       match detectLanguage (filename file) with
       | Some _ => Die CodeReview.undefinedChunks
       | None => Fail NoSuchElementException
       end, h).
Proof.
  intros Hpatch. rewrite codeReviewForChunks_cases.
  assert (Hparse : parseDiff (patch file) = []).
  { destruct parseDiff_nothing as [Habsent Hempty].
    destruct Hpatch as [-> | ->]; assumption. }
  rewrite Hparse. destruct (detectLanguage (filename file)); reflexivity.
Qed.

End EmptyPatch.

(** ** The prompts that reach the model *)

Lemma retryLoop_prompts (values : ChainInput) (budget : nat) :
  forall (st : CodeReview.RetryState) (h : History),
    exists t,
      snd (CodeReview.retryLoop policy (modelCall values) budget st h) = h ++ t
      /\ forall prompt,
           In (ModelCall prompt) t ->
           prompt = Prompt.rendered (lang values) (Js.string_of (diff values)).
Proof.
  induction budget as [|budget IH]; intros st h;
    cbn [CodeReview.retryLoop]; rewrite modelCall_step; cbv zeta;
    destruct (llm _ _) as [rejected|reply].
  1,2,4: eexists [ModelCall _]; split; [reflexivity|];
    intros prompt [Heq|[]]; now inversion Heq.
  set (pause := Sleep _).
  destruct (IH {| CodeReview.attempt := S (CodeReview.attempt st);
                  CodeReview.delay := 2 * CodeReview.delay st |}
              ((h ++ [ModelCall (Prompt.rendered (lang values)
                                   (Js.string_of (diff values)))]) ++ [pause]))
    as (t & Hsnd & Hprompts).
  eexists (ModelCall _ :: pause :: t). split.
  - rewrite Hsnd. now rewrite <- !app_assoc.
  - intros prompt [Heq|[Heq|Hin]].
    + now inversion Heq.
    + discriminate Heq.
    + now apply Hprompts.
Qed.

(** The prompts of the two reviews.  The prompt rendered for
    [{ lang, diff }] is the system text and the human template with
    the language label in place of [{lang}] and the value of [diff] in
    place of [{diff}]; the fixed text around them holds no brace and
    rendering never fails.  Every prompt [codeReviewFor] sends is
    rendered from the detected language and the file's patch, every
    prompt [codeReviewForChunks] sends from the detected language and
    the [content] of a chunk of the first parsed entry. *)
Theorem rendered_prompt_holds_diff_and_language :
  Prompt.humanTemplate
  = (Prompt.beforeLang ++ "{lang}" ++ Prompt.betweenLangAndDiff ++ "{diff}")%string
  /\ Prompt.braceFree Prompt.systemTemplate = true
  /\ Prompt.braceFree Prompt.beforeLang = true
  /\ Prompt.braceFree Prompt.betweenLangAndDiff = true
  /\ (forall values : ChainInput,
        Prompt.formatMessages values
        = inr [ SystemMessage Prompt.systemTemplate;
                HumanMessage
                  (Prompt.beforeLang ++ lang values
                     ++ Prompt.betweenLangAndDiff ++ Js.string_of (diff values))%string ])
  /\ (forall (file : PullRequestFile) (h : History),
        exists t,
          snd (CodeReview.codeReviewFor detectLanguage llm base jitter file h) = h ++ t
          /\ forall prompt,
               In (ModelCall prompt) t ->
               exists language,
                 detectLanguage (filename file) = Some language
                 /\ prompt = Prompt.rendered language (Js.string_of (patch file)))
  /\ (forall (file : PullRequestFile) (h : History),
        exists t,
          snd (CodeReview.codeReviewForChunks detectLanguage parseDiff llm file h) = h ++ t
          /\ forall prompt,
               In (ModelCall prompt) t ->
               exists language fd chunk,
                 detectLanguage (filename file) = Some language
                 /\ nth_error (parseDiff (patch file)) 0 = Some fd
                 /\ In chunk (chunks fd)
                 /\ prompt = Prompt.rendered language (content chunk)).
Proof.
  split; [vm_compute; reflexivity|].
  split; [vm_compute; reflexivity|].
  split; [vm_compute; reflexivity|].
  split; [vm_compute; reflexivity|].
  split; [exact formatMessages_rendered|].
  split.
  - intros file h. unfold CodeReview.codeReviewFor, CodeReview.programmingLanguageOf, flatMap.
    destruct (detectLanguage (filename file)) as [language|] eqn:Hlang.
    + destruct (retryLoop_prompts {| lang := language; diff := patch file |} 2
                  {| CodeReview.attempt := 1; CodeReview.delay := base |} h)
        as (t & Hsnd & Hprompts).
      exists t. split; [exact Hsnd|].
      intros prompt Hin. exists language. split; [reflexivity|].
      exact (Hprompts prompt Hin).
    + exists []. split; [cbn; now rewrite app_nil_r|]. intros prompt [].
  - intros file h. rewrite codeReviewForChunks_cases.
    destruct (detectLanguage (filename file)) as [language|] eqn:Hlang.
    2:{ exists []. split; [cbn; now rewrite app_nil_r|]. intros prompt []. }
    destruct (parseDiff (patch file)) as [|fd rest] eqn:Hparse.
    { exists []. split; [cbn; now rewrite app_nil_r|]. intros prompt []. }
    destruct (all_chunks_requests language (chunks fd) h) as (k & Hk & Hsnd).
    eexists. split; [exact Hsnd|].
    intros prompt Hin. apply in_map_iff in Hin. destruct Hin as (chunk & Heq & Hin).
    exists language, fd, chunk. repeat split.
    + now apply (in_firstn k (chunks fd)).
    + now inversion Heq.
Qed.

End ReviewGenerator.

(** ** The orchestrator *)

Lemma forEach_first_failure {W A B} (f : A -> Eff W B) (before : list A) :
  forall (x : A) (after : list A) (done : list B) (cause : Cause) (w w1 w2 : W),
    forEach before f w = (Success done, w1) ->
    f x w1 = (Failure cause, w2) ->
    forEach (before ++ x :: after) f w = (Failure cause, w2).
Proof.
  induction before as [|a before IH]; intros x after done cause w w1 w2 Hbefore Hx.
  - cbn in Hbefore. inversion Hbefore; subst.
    cbn [app forEach]. unfold flatMap. now rewrite Hx.
  - cbn [app forEach] in *. unfold flatMap at 1 in Hbefore. unfold flatMap at 1.
    destruct (f a w) as [[b|c] w']; [|discriminate].
    unfold map, flatMap, succeed in Hbefore.
    destruct (forEach before f w') as [[bs|c] w''] eqn:Hrest; [|discriminate].
    inversion Hbefore; subst.
    unfold map, flatMap.
    now rewrite (IH x after bs cause w' w1 w2 Hrest Hx).
Qed.

Lemma split_not_empty (sep : ascii) (s : string) : Js.split sep s <> [].
Proof.
  destruct s as [|c s]; cbn [Js.split]; [discriminate|].
  destruct (Ascii.eqb c sep); [discriminate|].
  destruct (Js.split sep s); discriminate.
Qed.

Lemma concat_two (sep first second : string) (others : list string) :
  String.concat sep (first :: second :: others)
  = (first ++ sep ++ String.concat sep (second :: others))%string.
Proof. reflexivity. Qed.

Lemma split_joins_back (sep : ascii) (s : string) :
  String.concat (String sep EmptyString) (Js.split sep s) = s.
Proof.
  induction s as [|c s IH]; [reflexivity|].
  cbn [Js.split].
  destruct (Js.split sep s) as [|piece pieces] eqn:Hsplit;
    [now apply split_not_empty in Hsplit|].
  destruct (Ascii.eqb c sep) eqn:Hc.
  - apply Ascii.eqb_eq in Hc. subst c.
    rewrite concat_two, IH. reflexivity.
  - destruct pieces as [|second others].
    + cbn in *. now rewrite IH.
    + rewrite concat_two. rewrite concat_two in IH. rewrite <- IH. reflexivity.
Qed.

Lemma split_pieces_without_separator (sep : ascii) (s : string) :
  Forall (fun piece => Js.occurs sep piece = false) (Js.split sep s).
Proof.
  induction s as [|c s IH]; [repeat constructor|].
  cbn [Js.split]. destruct (Ascii.eqb c sep) eqn:Hc.
  - constructor; [reflexivity | exact IH].
  - destruct (Js.split sep s) as [|piece pieces].
    + repeat constructor. cbn. now rewrite Hc.
    + inversion IH; subst. constructor; [|assumption].
      cbn. now rewrite Hc.
Qed.

(** ** White space and trimming *)

Lemma isWhiteSpace_codes (c : ascii) :
  Js.isWhiteSpace c = true <-> In (nat_of_ascii c) [9; 10; 11; 12; 13; 32; 160].
Proof.
  unfold Js.isWhiteSpace. cbv zeta. cbn [In].
  rewrite !orb_true_iff, andb_true_iff, !Nat.leb_le, !Nat.eqb_eq. lia.
Qed.

Lemma trimStart_black_head (s : string) (c : ascii) (rest : string) :
  Js.trimStart s = String c rest -> Js.isWhiteSpace c = false.
Proof.
  induction s as [|a s IH]; cbn [Js.trimStart]; [discriminate|].
  destruct (Js.isWhiteSpace a) eqn:Ha; [exact IH|].
  intros Heq. inversion Heq; subst. exact Ha.
Qed.

Lemma trimStart_fixed (s : string) :
  (forall c rest, s = String c rest -> Js.isWhiteSpace c = false) ->
  Js.trimStart s = s.
Proof.
  destruct s as [|c rest]; [reflexivity|].
  intros Hhead. cbn [Js.trimStart]. now rewrite (Hhead c rest eq_refl).
Qed.

Lemma trimEnd_black_cons (c : ascii) (rest : string) :
  Js.isWhiteSpace c = false ->
  Js.trimEnd (String c rest) = String c (Js.trimEnd rest).
Proof.
  intros Hc. cbn [Js.trimEnd]. destruct (Js.trimEnd rest); [now rewrite Hc | reflexivity].
Qed.

Lemma trimEnd_black_last (s : string) :
  forall (front : string) (c : ascii),
    Js.trimEnd s = (front ++ String c EmptyString)%string ->
    Js.isWhiteSpace c = false.
Proof.
  induction s as [|a s IH]; intros front c Heq.
  - destruct front; discriminate Heq.
  - cbn [Js.trimEnd] in Heq. destruct (Js.trimEnd s) as [|k kept] eqn:Hkept.
    + destruct (Js.isWhiteSpace a) eqn:Ha.
      * destruct front; discriminate Heq.
      * destruct front as [|f front]; cbn in Heq; inversion Heq; subst.
        -- exact Ha.
        -- destruct front; discriminate.
    + destruct front as [|f front]; cbn in Heq; inversion Heq; subst.
      now apply (IH front c).
Qed.

Lemma trimEnd_fixed (s : string) : Js.trimEnd (Js.trimEnd s) = Js.trimEnd s.
Proof.
  induction s as [|a s IH]; [reflexivity|].
  cbn [Js.trimEnd]. destruct (Js.trimEnd s) as [|k kept] eqn:Hkept.
  - destruct (Js.isWhiteSpace a) eqn:Ha; [reflexivity|].
    cbn [Js.trimEnd]. now rewrite Ha.
  - cbn [Js.trimEnd]. cbn [Js.trimEnd] in IH.
    destruct (Js.trimEnd kept) as [|k' kept'] eqn:Hk.
    + destruct (Js.isWhiteSpace k); [discriminate IH|]. now rewrite IH.
    + now rewrite IH.
Qed.

Lemma trim_black_head (s : string) (c : ascii) (rest : string) :
  Js.trim s = String c rest -> Js.isWhiteSpace c = false.
Proof.
  unfold Js.trim. destruct (Js.trimStart s) as [|a s'] eqn:Hstart; [discriminate|].
  pose proof (trimStart_black_head s a s' Hstart) as Ha.
  rewrite (trimEnd_black_cons a s' Ha). intros Heq. inversion Heq; subst. exact Ha.
Qed.

Lemma trim_fixed (s : string) : Js.trim (Js.trim s) = Js.trim s.
Proof.
  unfold Js.trim at 1.
  rewrite (trimStart_fixed (Js.trim s)).
  - unfold Js.trim. apply trimEnd_fixed.
  - intros c rest Heq. now apply (trim_black_head s c rest).
Qed.

Lemma occurs_trimStart (c : ascii) (s : string) :
  Js.occurs c s = false -> Js.occurs c (Js.trimStart s) = false.
Proof.
  induction s as [|a s IH]; [reflexivity|].
  cbn [Js.trimStart]. destruct (Js.isWhiteSpace a); [|now intros].
  cbn [Js.occurs]. intros H. apply orb_false_iff in H. now apply IH.
Qed.

Lemma occurs_trimEnd (c : ascii) (s : string) :
  Js.occurs c s = false -> Js.occurs c (Js.trimEnd s) = false.
Proof.
  induction s as [|a s IH]; [reflexivity|].
  cbn [Js.occurs]. intros H. apply orb_false_iff in H. destruct H as [Ha Hs].
  cbn [Js.trimEnd]. specialize (IH Hs).
  destruct (Js.trimEnd s) as [|k kept].
  - destruct (Js.isWhiteSpace a); [reflexivity|]. cbn [Js.occurs]. now rewrite Ha.
  - cbn [Js.occurs] in *. now rewrite Ha, IH.
Qed.

Lemma trimStart_splits (s : string) :
  exists lead,
    s = (lead ++ Js.trimStart s)%string
    /\ Forall (fun c => Js.isWhiteSpace c = true) (list_ascii_of_string lead).
Proof.
  induction s as [|a s IH].
  - exists EmptyString. split; [reflexivity | constructor].
  - cbn [Js.trimStart]. destruct (Js.isWhiteSpace a) eqn:Ha.
    + destruct IH as (lead & Heq & Hwhite). exists (String a lead). split.
      * cbn [append]. now rewrite <- Heq.
      * cbn [list_ascii_of_string]. now constructor.
    + exists EmptyString. split; [reflexivity | constructor].
Qed.

Lemma trimEnd_splits (s : string) :
  exists trail,
    s = (Js.trimEnd s ++ trail)%string
    /\ Forall (fun c => Js.isWhiteSpace c = true) (list_ascii_of_string trail).
Proof.
  induction s as [|a s IH].
  - exists EmptyString. split; [reflexivity | constructor].
  - destruct IH as (trail & Heq & Hwhite). cbn [Js.trimEnd].
    destruct (Js.trimEnd s) as [|k kept].
    + cbn [append] in Heq. subst trail. destruct (Js.isWhiteSpace a) eqn:Ha.
      * exists (String a s). split; [reflexivity|].
        cbn [list_ascii_of_string]. now constructor.
      * exists s. split; [reflexivity | exact Hwhite].
    + exists trail. split; [|exact Hwhite]. cbn [append]. f_equal. exact Heq.
Qed.

(** What trimming is: the piece without a run of white space at its
    start and one at its end, neither of which can be extended. *)
Lemma trim_splits (s : string) :
  exists lead trail,
    s = (lead ++ Js.trim s ++ trail)%string
    /\ Forall (fun c => Js.isWhiteSpace c = true) (list_ascii_of_string lead)
    /\ Forall (fun c => Js.isWhiteSpace c = true) (list_ascii_of_string trail)
    /\ (forall c rest, Js.trim s = String c rest -> Js.isWhiteSpace c = false)
    /\ (forall front c,
          Js.trim s = (front ++ String c EmptyString)%string ->
          Js.isWhiteSpace c = false).
Proof.
  destruct (trimStart_splits s) as (lead & Hlead & Hwhite).
  destruct (trimEnd_splits (Js.trimStart s)) as (trail & Htrail & Hwhite').
  exists lead, trail. split.
  { unfold Js.trim. rewrite <- Htrail. exact Hlead. }
  split; [exact Hwhite|]. split; [exact Hwhite'|]. split.
  - intros c rest Heq. now apply (trim_black_head s c rest).
  - intros front c Heq. unfold Js.trim in Heq.
    now apply (trimEnd_black_last (Js.trimStart s) front c).
Qed.

Section Orchestrator.

Variable exclude_files : string.
Variable context : Main.Context.
Variable causeToString : Cause -> string.

Let patterns : list string := List.map Js.trim (Js.split "," exclude_files).

Lemma excludeFilePatterns_run (head_sha : string) (h : History) :
  Main.payload_head_sha context = Some head_sha ->
  Main.excludeFilePatterns exclude_files context h
  = (Success patterns, h ++ [Info (Main.infoMessage context head_sha)]).
Proof.
  intros Hsha. unfold Main.excludeFilePatterns, map, tap, map, flatMap, sync, returns.
  rewrite Hsha. reflexivity.
Qed.

Lemma excludeFilePatterns_without_head (h : History) :
  Main.payload_head_sha context = None ->
  Main.excludeFilePatterns exclude_files context h
  = (Failure (Die Main.undefinedHead), h).
Proof.
  intros Hsha. unfold Main.excludeFilePatterns, map, tap, map, flatMap, sync, returns.
  rewrite Hsha. reflexivity.
Qed.

Section AnyServices.

Variable codeReviewService : Main.CodeReviewService.
Variable pullRequestService : Main.PullRequestService.

Let run : History -> History :=
  Main.run exclude_files context codeReviewService pullRequestService causeToString.

Let program : Eff History unit :=
  Main.program exclude_files context codeReviewService pullRequestService.

Let reviewAndComment : PullRequestFile -> Eff History unit :=
  Main.reviewAndComment context codeReviewService pullRequestService.

(** C4. In the loop over the filtered files the first failure, of
    the review of a file or of the posting of its comment, is the
    failure of the run: the program exits with that cause at the
    history reached when the file failed, whatever files remain,
    and [run] then marks the hosting environment failed with the
    rendered cause and does nothing else. *)
Theorem run_fails_on_first_file_failure
    (head_sha : string) (files before after : list PullRequestFile)
    (file : PullRequestFile) (done : list unit) (cause : Cause)
    (h h1 h2 h3 : History) :
  Main.eventName context = "pull_request" ->
  Main.payload_head_sha context = Some head_sha ->
  Main.getFilesForReview pullRequestService
    (Main.owner context) (Main.repo context) (Main.payload_number context)
    (List.map Js.trim (Js.split "," exclude_files))
    (h ++ [Info (Main.infoMessage context head_sha)])
  = (Success files, h1) ->
  filter Main.hasPatch files = before ++ file :: after ->
  forEach before
    (Main.reviewAndComment context codeReviewService pullRequestService) h1
  = (Success done, h2) ->
  (Main.codeReviewFor codeReviewService file h2 = (Failure cause, h3)
   \/ exists res h',
        Main.codeReviewFor codeReviewService file h2 = (Success res, h')
        /\ Main.createReviewComment pullRequestService
             (Main.reviewComment context file res) h'
           = (Failure cause, h3)) ->
  Main.program exclude_files context codeReviewService pullRequestService h
  = (Failure cause, h3)
  /\ Main.run exclude_files context codeReviewService pullRequestService
       causeToString h
     = h3 ++ [SetFailed (causeToString cause)].
Proof.
  intros Hevent Hsha Hfiles Hfilter Hbefore Hfile.
  assert (Hone : reviewAndComment file h2 = (Failure cause, h3)).
  { unfold reviewAndComment, Main.reviewAndComment, flatMap.
    destruct Hfile as [Hreview | (res & h' & Hreview & Hpost)].
    - now rewrite Hreview.
    - now rewrite Hreview. }
  assert (Hprogram : program h = (Failure cause, h3)).
  { unfold program, Main.program. rewrite Hevent. cbn [String.eqb Ascii.eqb Bool.eqb].
    unfold map at 1, flatMap at 1. unfold Main.pullRequestReview.
    unfold flatMap at 1. rewrite (excludeFilePatterns_run head_sha h Hsha).
    unfold flatMap at 1. unfold flatMap at 1. fold patterns in Hfiles. rewrite Hfiles.
    unfold sync, returns. rewrite Hfilter.
    now rewrite (forEach_first_failure _ before file after done cause h1 h2 h3 Hbefore Hone). }
  split; [exact Hprogram|].
  unfold Main.run. fold program. now rewrite Hprogram.
Qed.

(** C5. On an event other than [pull_request] the run lists no
    files and reviews nothing: all it does is mark the hosting
    environment failed, with a message that names the event it
    got. *)
Theorem run_rejects_other_events (h : History) :
  Main.eventName context <> "pull_request" ->
  Main.run exclude_files context codeReviewService pullRequestService
    causeToString h
  = h ++ [SetFailed
            ("This action only works on pull_request events. Got: "
               ++ Main.eventName context)%string].
Proof.
  intros Hevent. unfold Main.run, Main.program.
  destruct (String.eqb (Main.eventName context) "pull_request") eqn:Heq.
  - apply String.eqb_eq in Heq. contradiction.
  - reflexivity.
Qed.

End AnyServices.

(** ** Services seen through their tags *)

Section TracedServices.

Variable reviewAnswer : History -> PullRequestFile -> Exit ChainValues.
Variable chunksAnswer : History -> PullRequestFile -> Exit (list ChainValues).
Variable filesAnswer :
  History -> string -> string -> N -> list string -> Exit (list PullRequestFile).
Variable commentAnswer : History -> ReviewCommentRequest -> Exit unit.

Let reviews : Main.CodeReviewService :=
  Main.tracedCodeReviewService reviewAnswer chunksAnswer.

Let pulls : Main.PullRequestService :=
  Main.tracedPullRequestService filesAnswer commentAnswer.

Let reviewAndComment : PullRequestFile -> Eff History unit :=
  Main.reviewAndComment context reviews pulls.

(** The events of the loop: reviews of files of the list, and
    comments built from a reviewed file of the list. *)
Let fromFiles (files : list PullRequestFile) (t : History) : Prop :=
  forall ev, In ev t ->
    (exists file, In file files /\ ev = CodeReviewFor file)
    \/ (exists file res,
          In file files /\ In (CodeReviewFor file) t
          /\ ev = CreateReviewComment (Main.reviewComment context file res)).

Lemma fromFiles_cons file files (first rest : History) :
  fromFiles [file] first -> fromFiles files rest ->
  fromFiles (file :: files) (first ++ rest).
Proof.
  intros Hfirst Hrest ev Hin. apply in_app_or in Hin. destruct Hin as [Hin|Hin].
  - destruct (Hfirst ev Hin) as [(f & [Hf|[]] & Hev) | (f & res & [Hf|[]] & Hrev & Hev)];
      subst f.
    + left. exists file. split; [now left | exact Hev].
    + right. exists file, res. split; [now left|]. split; [|exact Hev].
      apply in_or_app. now left.
  - destruct (Hrest ev Hin) as [(f & Hf & Hev) | (f & res & Hf & Hrev & Hev)].
    + left. exists f. split; [now right | exact Hev].
    + right. exists f, res. split; [now right|]. split; [|exact Hev].
      apply in_or_app. now right.
Qed.

Lemma reviewAndComment_traced (file : PullRequestFile) (h : History) :
  reviewAndComment file h
  = match reviewAnswer h file with
    | Success res =>
        (commentAnswer (h ++ [CodeReviewFor file]) (Main.reviewComment context file res),
         h ++ [CodeReviewFor file;
               CreateReviewComment (Main.reviewComment context file res)])
    | Failure cause => (Failure cause, h ++ [CodeReviewFor file])
    end.
Proof.
  unfold reviewAndComment, Main.reviewAndComment, flatMap. cbn.
  destruct (reviewAnswer h file); [|reflexivity].
  now rewrite <- app_assoc.
Qed.

Lemma forEach_traced (files : list PullRequestFile) :
  forall h : History,
    exists t,
      snd (forEach files reviewAndComment h) = h ++ t /\ fromFiles files t.
Proof.
  induction files as [|file files IH]; intros h.
  - exists []. split; [cbn; now rewrite app_nil_r|]. intros ev [].
  - cbn [forEach]. unfold flatMap at 1. rewrite reviewAndComment_traced.
    destruct (reviewAnswer h file) as [res|cause].
    + set (request := Main.reviewComment context file res).
      assert (Hfirst : fromFiles [file] [CodeReviewFor file; CreateReviewComment request]).
      { intros ev [Hev|[Hev|[]]]; subst ev.
        - left. exists file. split; [now left | reflexivity].
        - right. exists file, res. repeat split; now left. }
      destruct (commentAnswer _ _) as [[]|cause].
      * destruct (IH (h ++ [CodeReviewFor file; CreateReviewComment request]))
          as (t & Hsnd & Ht).
        exists ([CodeReviewFor file; CreateReviewComment request] ++ t). split.
        -- unfold map, flatMap, succeed.
           destruct (forEach files reviewAndComment _) as [[bs|c] h'];
             cbn [snd] in *; rewrite Hsnd; now rewrite <- app_assoc.
        -- now apply fromFiles_cons.
      * exists ([CodeReviewFor file; CreateReviewComment request] ++ []). split.
        -- now rewrite app_nil_r.
        -- apply fromFiles_cons; [exact Hfirst | intros ev []].
    + exists ([CodeReviewFor file] ++ []). split; [now rewrite app_nil_r|].
      apply fromFiles_cons; [|intros ev []].
      intros ev [Hev|[]]; subst ev. left. exists file. split; [now left | reflexivity].
Qed.

(** The [pull_request] branch, with the payload in place: the
    patterns go to the file listing, the listed files with a patch
    go through the loop. *)
Lemma pullRequestReview_traced (head_sha : string) (h : History) :
  Main.payload_head_sha context = Some head_sha ->
  let listing :=
    GetFilesForReview (Main.owner context) (Main.repo context)
      (Main.payload_number context) patterns in
  let h1 := h ++ [Info (Main.infoMessage context head_sha)] in
  Main.pullRequestReview exclude_files context reviews pulls h
  = match filesAnswer h1 (Main.owner context) (Main.repo context)
            (Main.payload_number context) patterns with
    | Success files =>
        forEach (filter Main.hasPatch files) reviewAndComment (h1 ++ [listing])
    | Failure cause => (Failure cause, h1 ++ [listing])
    end.
Proof.
  intros Hsha listing h1. unfold Main.pullRequestReview.
  unfold flatMap at 1. rewrite (excludeFilePatterns_run head_sha h Hsha).
  unfold flatMap at 1. unfold flatMap at 1. cbn [pulls Main.tracedPullRequestService
    Main.getFilesForReview].
  fold h1. fold patterns. fold listing.
  destruct (filesAnswer h1 _ _ _ _); reflexivity.
Qed.

Let run : History -> History :=
  Main.run exclude_files context reviews pulls causeToString.

Let quiet (ev : Event) : Prop :=
  match ev with
  | CodeReviewFor _ | CreateReviewComment _ => False
  | _ => True
  end.

Lemma fromFiles_patched (files : list PullRequestFile) (before t after : History) :
  fromFiles (filter Main.hasPatch files) t ->
  Forall quiet before -> Forall quiet after ->
  (forall file, patch file = None -> ~ In (CodeReviewFor file) (before ++ t ++ after))
  /\ (forall request,
        In (CreateReviewComment request) (before ++ t ++ after) ->
        exists file res,
          patch file <> None
          /\ In (CodeReviewFor file) (before ++ t ++ after)
          /\ request = Main.reviewComment context file res).
Proof.
  intros Hfrom Hbefore Hafter.
  assert (Hmid : forall ev, ~ quiet ev -> In ev (before ++ t ++ after) -> In ev t).
  { intros ev Hloud Hin. rewrite Forall_forall in Hbefore, Hafter.
    apply in_app_or in Hin. destruct Hin as [Hin|Hin]; [now apply Hbefore in Hin|].
    apply in_app_or in Hin. destruct Hin as [Hin|Hin]; [exact Hin|].
    now apply Hafter in Hin. }
  assert (Hpatched : forall file,
             In file (filter Main.hasPatch files) -> patch file <> None).
  { intros file Hin. apply filter_In in Hin. destruct Hin as [_ Hhas].
    unfold Main.hasPatch in Hhas. destruct (patch file); [discriminate|discriminate]. }
  split.
  - intros file Hnone Hin. apply Hmid in Hin; [|intros Hq; exact Hq].
    destruct (Hfrom _ Hin) as [(f & Hf & Hev) | (f & res & _ & _ & Hev)];
      [|discriminate].
    inversion Hev; subst f. now apply (Hpatched file Hf).
  - intros request Hin. apply Hmid in Hin; [|intros Hq; exact Hq].
    destruct (Hfrom _ Hin) as [(f & _ & Hev) | (f & res & Hf & Hrev & Hev)];
      [discriminate|].
    exists f, res. split; [now apply Hpatched|]. split.
    + apply in_or_app. right. apply in_or_app. now left.
    + now inversion Hev.
Qed.

(** C6. A file whose patch is absent is left out of the review: in
    the events of a run no such file is passed to [codeReviewFor],
    and every comment posted is built from a file that has a patch
    and was reviewed in that run. *)
Theorem run_skips_files_without_patch (h : History) :
  exists t,
    Main.run exclude_files context
      (Main.tracedCodeReviewService reviewAnswer chunksAnswer)
      (Main.tracedPullRequestService filesAnswer commentAnswer)
      causeToString h
    = h ++ t
    /\ (forall file, patch file = None -> ~ In (CodeReviewFor file) t)
    /\ (forall request,
          In (CreateReviewComment request) t ->
          exists file res,
            patch file <> None
            /\ In (CodeReviewFor file) t
            /\ request = Main.reviewComment context file res).
Proof.
  assert (Hnothing : fromFiles (filter Main.hasPatch []) []) by (intros ev []).
  fold reviews pulls. unfold Main.run, Main.program.
  destruct (String.eqb (Main.eventName context) "pull_request").
  2:{ eexists [SetFailed _]. split; [reflexivity|].
      apply (fromFiles_patched [] [] [] [SetFailed _] Hnothing);
        repeat constructor. }
  unfold map at 1, flatMap at 1.
  destruct (Main.payload_head_sha context) as [head_sha|] eqn:Hsha.
  2:{ unfold Main.pullRequestReview. unfold flatMap at 1.
      rewrite (excludeFilePatterns_without_head h Hsha).
      eexists [SetFailed _]. split; [reflexivity|].
      apply (fromFiles_patched [] [] [] [SetFailed _] Hnothing);
        repeat constructor. }
  rewrite (pullRequestReview_traced head_sha h Hsha). cbv zeta.
  set (info := Info _). set (listing := GetFilesForReview _ _ _ _).
  destruct (filesAnswer _ _ _ _ _) as [files|cause].
  2:{ exists ([info; listing] ++ [] ++ [SetFailed (causeToString cause)]). split.
      - unfold Main.core_setFailed. now rewrite <- !app_assoc.
      - apply (fromFiles_patched [] _ _ _ Hnothing); repeat constructor. }
  destruct (forEach_traced (filter Main.hasPatch files) ((h ++ [info]) ++ [listing]))
    as (t & Hsnd & Ht).
  fold reviewAndComment.
  destruct (forEach (filter Main.hasPatch files) reviewAndComment _)
    as [[done|cause] h'] eqn:Hloop; cbn [snd] in Hsnd; subst h'.
  - exists ([info; listing] ++ t ++ []). split.
    + unfold succeed. rewrite app_nil_r. now rewrite <- !app_assoc.
    + apply (fromFiles_patched files _ _ _ Ht); repeat constructor.
  - exists ([info; listing] ++ t ++ [SetFailed (causeToString cause)]). split.
    + unfold Main.core_setFailed. now rewrite <- !app_assoc.
    + apply (fromFiles_patched files _ _ _ Ht); repeat constructor.
Qed.

(** C10. The patterns handed to the file listing are the pieces of
    the [exclude_files] input between its commas, each trimmed.  The
    pieces hold no comma and joined by commas give the input back.
    The pattern of a piece is the piece without a run of white space
    (TAB, LF, VT, FF, CR, SP, NBSP) at its start and one at its end,
    and itself neither starts nor ends with white space.  For the
    empty input the patterns are the one-element list of the empty
    string. *)
Theorem exclude_patterns_split_and_trimmed (head_sha : string) (h : History) :
  Main.eventName context = "pull_request" ->
  Main.payload_head_sha context = Some head_sha ->
  let pieces := Js.split "," exclude_files in
  String.concat "," pieces = exclude_files
  /\ Forall (fun piece => Js.occurs "," piece = false) pieces
  /\ (forall c,
        Js.isWhiteSpace c = true
        <-> In (nat_of_ascii c) [9; 10; 11; 12; 13; 32; 160])
  /\ Forall
       (fun piece =>
          exists lead trail,
            piece = (lead ++ Js.trim piece ++ trail)%string
            /\ Forall (fun c => Js.isWhiteSpace c = true) (list_ascii_of_string lead)
            /\ Forall (fun c => Js.isWhiteSpace c = true) (list_ascii_of_string trail)
            /\ (forall c rest, Js.trim piece = String c rest -> Js.isWhiteSpace c = false)
            /\ (forall front c,
                  Js.trim piece = (front ++ String c EmptyString)%string ->
                  Js.isWhiteSpace c = false))
       pieces
  /\ (exclude_files = EmptyString -> List.map Js.trim pieces = [EmptyString])
  /\ Main.excludeFilePatterns exclude_files context h
     = (Success (List.map Js.trim pieces),
        h ++ [Info (Main.infoMessage context head_sha)])
  /\ exists t,
       Main.run exclude_files context
         (Main.tracedCodeReviewService reviewAnswer chunksAnswer)
         (Main.tracedPullRequestService filesAnswer commentAnswer)
         causeToString h
       = h ++ Info (Main.infoMessage context head_sha)
           :: GetFilesForReview (Main.owner context) (Main.repo context)
                (Main.payload_number context) (List.map Js.trim pieces)
           :: t.
Proof.
  intros Hevent Hsha pieces.
  split; [apply split_joins_back|].
  split; [apply split_pieces_without_separator|].
  split; [exact isWhiteSpace_codes|].
  split; [apply Forall_forall; intros piece _; apply trim_splits|].
  split; [intros Hempty; unfold pieces; now rewrite Hempty|].
  split; [exact (excludeFilePatterns_run head_sha h Hsha)|].
  fold reviews pulls. unfold Main.run, Main.program. rewrite Hevent.
  cbn [String.eqb Ascii.eqb Bool.eqb].
  unfold map at 1, flatMap at 1.
  rewrite (pullRequestReview_traced head_sha h Hsha). cbv zeta.
  fold pieces. change patterns with (List.map Js.trim pieces).
  set (info := Info _). set (listing := GetFilesForReview _ _ _ _).
  destruct (filesAnswer _ _ _ _ _) as [files|cause].
  2:{ exists [SetFailed (causeToString cause)].
      unfold Main.core_setFailed. now rewrite <- !app_assoc. }
  destruct (forEach_traced (filter Main.hasPatch files) ((h ++ [info]) ++ [listing]))
    as (t & Hsnd & _).
  fold reviewAndComment.
  destruct (forEach (filter Main.hasPatch files) reviewAndComment _)
    as [[done|cause] h'] eqn:Hloop; cbn [snd] in Hsnd; subst h'.
  - exists t. unfold succeed. now rewrite <- !app_assoc.
  - exists (t ++ [SetFailed (causeToString cause)]).
    unfold Main.core_setFailed. now rewrite <- !app_assoc.
Qed.

End TracedServices.

End Orchestrator.

(** ** The pipeline on the scenario *)

Lemma codeReviewFor_retry_bound_three_scenario :
  (exists last t,
     Scenario.alwaysRejects 2 (Prompt.rendered "Java" Scenario.fooPatch) = inl last
     /\ CodeReview.codeReviewFor Scenario.detectLanguage Scenario.alwaysRejects
          1000 Scenario.noJitter Scenario.foo []
        = (Failure (Fail (UnknownException last)), [] ++ t)
     /\ filter isModelCall t
        = repeat (ModelCall (Prompt.rendered "Java" Scenario.fooPatch)) 3)
  /\ (exists t,
        CodeReview.codeReviewFor Scenario.detectLanguage Scenario.failsTwice
          1000 Scenario.noJitter Scenario.foo []
        = (Success {| text := "LGTM" |}, [] ++ t)
        /\ filter isModelCall t
           = repeat (ModelCall (Prompt.rendered "Java" Scenario.fooPatch)) 3).
Proof.
  split.
  - apply (proj1 (codeReviewFor_retry_bound_three Scenario.detectLanguage
                    Scenario.alwaysRejects 1000 Scenario.noJitter
                    Scenario.foo "Java" [] eq_refl)).
    intros i Hi.
    destruct i as [|[|[|i]]]; [eexists; reflexivity .. | lia].
  - apply (proj2 (codeReviewFor_retry_bound_three Scenario.detectLanguage
                    Scenario.failsTwice 1000 Scenario.noJitter
                    Scenario.foo "Java" [] eq_refl) 3 "LGTM").
    + lia.
    + intros i Hi. destruct i as [|[|i]]; [eexists; reflexivity .. | cbn in Hi; lia].
    + reflexivity.
Defined.

Lemma codeReviewForChunks_results_in_chunk_order_scenario :
  CodeReview.codeReviewForChunks Scenario.detectLanguage Scenario.parseDiff
    Scenario.answersAll Scenario.foo []
  = (Success [ {| text := "review of the first hunk" |};
               {| text := "review of the second hunk" |} ],
     [ ModelCall (Prompt.rendered "Java" (content Scenario.firstHunk));
       ModelCall (Prompt.rendered "Java" (content Scenario.secondHunk)) ]).
Proof.
  apply (codeReviewForChunks_results_in_chunk_order Scenario.detectLanguage
           Scenario.parseDiff Scenario.answersAll Scenario.foo "Java"
           Scenario.fooDiff [Scenario.strayDiff]
           ["review of the first hunk"; "review of the second hunk"] []).
  - reflexivity.
  - reflexivity.
  - reflexivity.
  - intros i chunk reply Hchunk Hreply.
    destruct i as [|[|i]]; cbn in Hchunk, Hreply.
    + inversion Hreply. reflexivity.
    + inversion Hreply. reflexivity.
    + destruct i; discriminate.
Defined.

Lemma codeReviewForChunks_fails_on_empty_patch_scenario :
  CodeReview.codeReviewForChunks Scenario.detectLanguage Scenario.parseDiff
    Scenario.answersAll Scenario.blank []
  = (Failure (Die CodeReview.undefinedChunks), [])
  /\ CodeReview.codeReviewForChunks Scenario.detectLanguage Scenario.parseDiff
       Scenario.answersAll Scenario.logo []
     = (Failure (Fail NoSuchElementException), []).
Proof.
  split.
  - apply (codeReviewForChunks_fails_on_empty_patch Scenario.detectLanguage
             Scenario.parseDiff Scenario.answersAll (conj eq_refl eq_refl)
             Scenario.blank []).
    right. reflexivity.
  - apply (codeReviewForChunks_fails_on_empty_patch Scenario.detectLanguage
             Scenario.parseDiff Scenario.answersAll (conj eq_refl eq_refl)
             Scenario.logo []).
    left. reflexivity.
Defined.

Lemma codeReviewForChunks_fails_without_retry_scenario :
  CodeReview.codeReviewForChunks Scenario.detectLanguage Scenario.parseDiff
    Scenario.answersOnce Scenario.foo []
  = (Failure (Fail (UnknownException "quota exceeded")),
     [ ModelCall (Prompt.rendered "Java" (content Scenario.firstHunk));
       ModelCall (Prompt.rendered "Java" (content Scenario.secondHunk)) ]).
Proof.
  apply (codeReviewForChunks_fails_without_retry Scenario.detectLanguage
           Scenario.parseDiff Scenario.answersOnce Scenario.foo "Java"
           Scenario.fooDiff [Scenario.strayDiff]
           [Scenario.firstHunk] Scenario.secondHunk []
           ["review of the first hunk"] "quota exceeded" []).
  - reflexivity.
  - reflexivity.
  - reflexivity.
  - reflexivity.
  - intros i c reply Hc Hreply.
    destruct i as [|i]; cbn in Hc, Hreply.
    + inversion Hreply. reflexivity.
    + destruct i; discriminate.
  - reflexivity.
Defined.

Lemma run_fails_on_first_file_failure_scenario :
  let reviews := Main.tracedCodeReviewService Scenario.reviewAnswer Scenario.chunksAnswer in
  let pulls := Main.tracedPullRequestService Scenario.filesAnswer Scenario.commentAnswer in
  let h3 :=
    [ Info "repoName: shop pull_number: 7 owner: acme sha: c0ffee";
      GetFilesForReview "acme" "shop" 7 [EmptyString];
      CodeReviewFor Scenario.bar;
      CreateReviewComment
        (Main.reviewComment Scenario.pullRequest Scenario.bar {| text := "LGTM" |});
      CodeReviewFor Scenario.foo ] in
  Main.program EmptyString Scenario.pullRequest reviews pulls []
  = (Failure (Fail (UnknownException "timeout on attempt 3")), h3)
  /\ Main.run EmptyString Scenario.pullRequest reviews pulls Scenario.causeToString []
     = h3 ++ [SetFailed "UnknownException: timeout on attempt 3"].
Proof.
  intros reviews pulls h3.
  eapply (run_fails_on_first_file_failure EmptyString Scenario.pullRequest
            Scenario.causeToString reviews pulls "c0ffee"
            [Scenario.logo; Scenario.bar; Scenario.foo; Scenario.baz]
            [Scenario.bar] [Scenario.baz] Scenario.foo [tt]
            (Fail (UnknownException "timeout on attempt 3")) []).
  - reflexivity.
  - reflexivity.
  - reflexivity.
  - reflexivity.
  - reflexivity.
  - left. reflexivity.
Defined.

Lemma run_rejects_other_events_scenario :
  Main.run "*.md" Scenario.push
    (Main.tracedCodeReviewService Scenario.reviewAnswer Scenario.chunksAnswer)
    (Main.tracedPullRequestService Scenario.filesAnswer Scenario.commentAnswer)
    Scenario.causeToString []
  = [SetFailed "This action only works on pull_request events. Got: push"].
Proof.
  apply (run_rejects_other_events "*.md" Scenario.push Scenario.causeToString
           (Main.tracedCodeReviewService Scenario.reviewAnswer Scenario.chunksAnswer)
           (Main.tracedPullRequestService Scenario.filesAnswer Scenario.commentAnswer) []).
  discriminate.
Defined.

Lemma exclude_patterns_split_and_trimmed_scenario :
  (List.map Js.trim (Js.split "," EmptyString) = [EmptyString]
   /\ exists t,
        Main.run EmptyString Scenario.pullRequest
          (Main.tracedCodeReviewService Scenario.reviewAnswer Scenario.chunksAnswer)
          (Main.tracedPullRequestService Scenario.filesAnswer Scenario.commentAnswer)
          Scenario.causeToString []
        = Info "repoName: shop pull_number: 7 owner: acme sha: c0ffee"
            :: GetFilesForReview "acme" "shop" 7 [EmptyString] :: t)
  /\ (Js.split "," " *.md ,docs/** ,, src/gen/*	"
      = [" *.md "; "docs/** "; EmptyString; " src/gen/*	"]
      /\ exists t,
           Main.run " *.md ,docs/** ,, src/gen/*	" Scenario.pullRequest
             (Main.tracedCodeReviewService Scenario.reviewAnswer Scenario.chunksAnswer)
             (Main.tracedPullRequestService Scenario.filesAnswer Scenario.commentAnswer)
             Scenario.causeToString []
           = Info "repoName: shop pull_number: 7 owner: acme sha: c0ffee"
               :: GetFilesForReview "acme" "shop" 7
                    ["*.md"; "docs/**"; EmptyString; "src/gen/*"]
               :: t).
Proof.
  split.
  - destruct (exclude_patterns_split_and_trimmed EmptyString Scenario.pullRequest
                Scenario.causeToString Scenario.reviewAnswer Scenario.chunksAnswer
                Scenario.filesAnswer Scenario.commentAnswer "c0ffee" []
                eq_refl eq_refl)
      as (_ & _ & _ & _ & Hempty & _ & Hrun).
    split; [exact (Hempty eq_refl) | exact Hrun].
  - destruct (exclude_patterns_split_and_trimmed " *.md ,docs/** ,, src/gen/*	"
                Scenario.pullRequest
                Scenario.causeToString Scenario.reviewAnswer Scenario.chunksAnswer
                Scenario.filesAnswer Scenario.commentAnswer "c0ffee" []
                eq_refl eq_refl)
      as (_ & _ & _ & _ & _ & _ & Hrun).
    split; [reflexivity | exact Hrun].
Defined.

(** With patterns in the input: pieces between commas, trimmed. *)
Example exclude_patterns_of_a_list :
  List.map Js.trim (Js.split "," " *.md ,docs/** ,, src/gen/*	")
  = ["*.md"; "docs/**"; EmptyString; "src/gen/*"].
Proof. reflexivity. Qed.

(** Scenario C of the spec: two rejections, then an answer. *)
Example codeReviewFor_third_attempt :
  CodeReview.codeReviewFor Scenario.detectLanguage Scenario.failsTwice
    1000 Scenario.noJitter Scenario.foo []
  = (Success {| text := "LGTM" |},
     [ ModelCall (Prompt.rendered "Java" Scenario.fooPatch); Sleep 1000;
       ModelCall (Prompt.rendered "Java" Scenario.fooPatch); Sleep 2000;
       ModelCall (Prompt.rendered "Java" Scenario.fooPatch) ]).
Proof.
  vm_compute. reflexivity.
Qed.

(** Scenario D of the spec, with [CodeReviewServiceImpl] behind the tag:
    the model rejects every call, the first reviewed file uses its
    three attempts, no comment is posted and the run is marked failed. *)
Example run_when_the_model_always_rejects :
  Main.run EmptyString Scenario.pullRequest
    (Main.CodeReviewServiceLive Scenario.detectLanguage Scenario.parseDiff
       Scenario.alwaysRejects 1000 Scenario.noJitter)
    (Main.tracedPullRequestService Scenario.filesAnswer Scenario.commentAnswer)
    Scenario.causeToString []
  = [ Info "repoName: shop pull_number: 7 owner: acme sha: c0ffee";
      GetFilesForReview "acme" "shop" 7 [EmptyString];
      ModelCall (Prompt.rendered "Java" "@@ -3 +3 @@ -x +y"); Sleep 1000;
      ModelCall (Prompt.rendered "Java" "@@ -3 +3 @@ -x +y"); Sleep 2000;
      ModelCall (Prompt.rendered "Java" "@@ -3 +3 @@ -x +y");
      SetFailed "UnknownException: timeout on attempt 3" ].
Proof. vm_compute. reflexivity. Qed.

(** * Further properties *)

(** ** Runs of the orchestrator, call by call *)

Lemma only_mark_is_last {A} (quiet : A -> Prop) (body : list A) :
  forall (mark last : A) (t1 t2 : list A),
    Forall quiet body -> ~ quiet mark ->
    t1 ++ mark :: t2 = body ++ [last] ->
    t2 = [] /\ Forall quiet t1.
Proof.
  induction body as [|b body IH]; intros mark last t1 t2 Hbody Hmark Heq.
  - destruct t1 as [|a t1]; cbn in Heq.
    + inversion Heq. split; [reflexivity | constructor].
    + inversion Heq. now destruct t1.
  - inversion Hbody as [|? ? Hb Hrest]; subst.
    destruct t1 as [|a t1]; cbn in Heq; inversion Heq; subst.
    + contradiction.
    + destruct (IH mark last t1 t2 Hrest Hmark H1) as [Ht2 Ht1].
      split; [exact Ht2 | now constructor].
Qed.

Section TracedRuns.

Variable exclude_files : string.
Variable context : Main.Context.
Variable causeToString : Cause -> string.
Variable reviewAnswer : History -> PullRequestFile -> Exit ChainValues.
Variable chunksAnswer : History -> PullRequestFile -> Exit (list ChainValues).
Variable filesAnswer :
  History -> string -> string -> N -> list string -> Exit (list PullRequestFile).
Variable commentAnswer : History -> ReviewCommentRequest -> Exit unit.

Let reviews : Main.CodeReviewService :=
  Main.tracedCodeReviewService reviewAnswer chunksAnswer.

Let pulls : Main.PullRequestService :=
  Main.tracedPullRequestService filesAnswer commentAnswer.

Let reviewAndComment : PullRequestFile -> Eff History unit :=
  Main.reviewAndComment context reviews pulls.

Let run : History -> History :=
  Main.run exclude_files context reviews pulls causeToString.

Let patterns : list string := List.map Js.trim (Js.split "," exclude_files).

(** The two calls made for a file: its review, then its comment. *)
Let block (reviewed : PullRequestFile * ChainValues) : History :=
  [ CodeReviewFor (fst reviewed);
    CreateReviewComment (Main.reviewComment context (fst reviewed) (snd reviewed)) ].

Lemma reviewAndComment_step (file : PullRequestFile) (h : History) :
  reviewAndComment file h
  = match reviewAnswer h file with
    | Success res =>
        (commentAnswer (h ++ [CodeReviewFor file]) (Main.reviewComment context file res),
         h ++ block (file, res))
    | Failure cause => (Failure cause, h ++ [CodeReviewFor file])
    end.
Proof.
  exact (reviewAndComment_traced context reviewAnswer chunksAnswer filesAnswer
           commentAnswer file h).
Qed.

(** The loop stops at the first failure: the files before it have
    their two calls each, the failing file its review alone when the
    review failed. *)
Lemma forEach_traced_shape (files : list PullRequestFile) :
  forall h : History,
    exists (k : nat) (answers : list ChainValues) (tail : History) (exit : Exit (list unit)),
      forEach files reviewAndComment h
      = (exit, h ++ flat_map block (combine (firstn k files) answers) ++ tail)
      /\ List.length answers = k
      /\ k <= List.length files
      /\ ((exists done, exit = Success done /\ k = List.length files /\ tail = [])
          \/ (exists cause,
                exit = Failure cause
                /\ ((tail = [] /\ 0 < k)
                    \/ exists file,
                         nth_error files k = Some file /\ tail = [CodeReviewFor file]))).
Proof.
  induction files as [|file files IH]; intros h.
  - exists 0, [], [], (Success []). cbn. rewrite app_nil_r.
    repeat split; try lia. left. now exists [].
  - cbn [forEach]. unfold flatMap at 1. rewrite reviewAndComment_step.
    destruct (reviewAnswer h file) as [res|cause].
    + destruct (commentAnswer _ _) as [[]|cause].
      * destruct (IH (h ++ block (file, res)))
          as (k & answers & tail & exit & Hrun & Hlen & Hk & Hexit).
        unfold map, flatMap, succeed. rewrite Hrun.
        exists (S k), (res :: answers), tail.
        destruct Hexit as [(done & -> & Hall & Htail) | (c & -> & Hwhy)].
        -- exists (Success (tt :: done)). split.
           { cbn [firstn combine flat_map]. now rewrite <- !app_assoc. }
           cbn [List.length]. repeat split; try lia.
           left. exists (tt :: done). repeat split; [lia | exact Htail].
        -- exists (Failure c). split.
           { cbn [firstn combine flat_map]. now rewrite <- !app_assoc. }
           cbn [List.length]. repeat split; try lia.
           right. exists c. split; [reflexivity|].
           destruct Hwhy as [[Htail _] | (f & Hf & Htail)].
           ++ left. split; [exact Htail | lia].
           ++ right. exists f. split; [exact Hf | exact Htail].
      * exists 1, [res], [], (Failure cause). split.
        { cbn [firstn combine flat_map]. now rewrite !app_nil_r. }
        cbn [List.length]. repeat split; try lia.
        right. exists cause. split; [reflexivity|]. left. split; [reflexivity | lia].
    + exists 0, [], [CodeReviewFor file], (Failure cause). split; [reflexivity|].
      cbn [List.length]. repeat split; try lia.
      right. exists cause. split; [reflexivity|]. right. now exists file.
Qed.

(** A pull-request run whose listing answered, from start to end. *)
Lemma run_traced_shape (head_sha : string) (files : list PullRequestFile) (h : History) :
  Main.eventName context = "pull_request" ->
  Main.payload_head_sha context = Some head_sha ->
  filesAnswer (h ++ [Info (Main.infoMessage context head_sha)])
    (Main.owner context) (Main.repo context) (Main.payload_number context) patterns
  = Success files ->
  exists (k : nat) (answers : list ChainValues) (tail : History),
    k <= List.length (filter Main.hasPatch files)
    /\ List.length answers = k
    /\ run h
       = h ++ Info (Main.infoMessage context head_sha)
           :: GetFilesForReview (Main.owner context) (Main.repo context)
                (Main.payload_number context) patterns
           :: flat_map block (combine (firstn k (filter Main.hasPatch files)) answers)
           ++ tail
    /\ ((tail = [] /\ k = List.length (filter Main.hasPatch files))
        \/ (exists cause, tail = [SetFailed (causeToString cause)] /\ 0 < k)
        \/ (exists file cause,
              nth_error (filter Main.hasPatch files) k = Some file
              /\ tail = [CodeReviewFor file; SetFailed (causeToString cause)])).
Proof.
  intros Hevent Hsha Hfiles.
  unfold run, Main.run, Main.program. rewrite Hevent.
  cbn [String.eqb Ascii.eqb Bool.eqb].
  unfold map at 1, flatMap at 1.
  unfold reviews, pulls.
  rewrite (pullRequestReview_traced exclude_files context reviewAnswer chunksAnswer
             filesAnswer commentAnswer head_sha h Hsha).
  cbv zeta. fold patterns. rewrite Hfiles.
  fold reviews pulls. fold reviewAndComment.
  set (info := Info _). set (listing := GetFilesForReview _ _ _ _).
  destruct (forEach_traced_shape (filter Main.hasPatch files) ((h ++ [info]) ++ [listing]))
    as (k & answers & tail & exit & Hrun & Hlen & Hk & Hexit).
  rewrite Hrun. exists k, answers.
  destruct Hexit as [(done & -> & Hall & ->) | (cause & -> & Hwhy)].
  - exists []. repeat split; try assumption.
    + unfold succeed. now rewrite <- !app_assoc.
    + left. now split.
  - destruct Hwhy as [[-> Hpos] | (file & Hfile & ->)].
    + exists [SetFailed (causeToString cause)]. repeat split; try assumption.
      * unfold Main.core_setFailed. rewrite app_nil_r. now rewrite <- !app_assoc.
      * right. left. exists cause. now split.
    + exists [CodeReviewFor file; SetFailed (causeToString cause)].
      repeat split; try assumption.
      * unfold Main.core_setFailed. now rewrite <- !app_assoc.
      * right. right. now exists file, cause.
Qed.

(** X1. A pull-request run whose listing answered makes, after the
    info line and the listing, the review of a file directly followed
    by the comment on that file, for a prefix of the files with a patch
    in listing order; it then ends there with every such file done, or
    with the mark of failure after a refused comment, or with the
    failed review of the next file and the mark of failure. *)
Theorem run_reviews_then_comments_in_listing_order
    (head_sha : string) (files : list PullRequestFile) (h : History) :
  Main.eventName context = "pull_request" ->
  Main.payload_head_sha context = Some head_sha ->
  filesAnswer (h ++ [Info (Main.infoMessage context head_sha)])
    (Main.owner context) (Main.repo context) (Main.payload_number context)
    (List.map Js.trim (Js.split "," exclude_files))
  = Success files ->
  exists (k : nat) (answers : list ChainValues) (tail : History),
    k <= List.length (filter Main.hasPatch files)
    /\ List.length answers = k
    /\ Main.run exclude_files context
         (Main.tracedCodeReviewService reviewAnswer chunksAnswer)
         (Main.tracedPullRequestService filesAnswer commentAnswer)
         causeToString h
       = h ++ Info (Main.infoMessage context head_sha)
           :: GetFilesForReview (Main.owner context) (Main.repo context)
                (Main.payload_number context)
                (List.map Js.trim (Js.split "," exclude_files))
           :: flat_map
                (fun reviewed =>
                   [ CodeReviewFor (fst reviewed);
                     CreateReviewComment
                       (Main.reviewComment context (fst reviewed) (snd reviewed)) ])
                (combine (firstn k (filter Main.hasPatch files)) answers)
           ++ tail
    /\ ((tail = [] /\ k = List.length (filter Main.hasPatch files))
        \/ (exists cause, tail = [SetFailed (causeToString cause)] /\ 0 < k)
        \/ (exists file cause,
              nth_error (filter Main.hasPatch files) k = Some file
              /\ tail = [CodeReviewFor file; SetFailed (causeToString cause)])).
Proof.
  intros Hevent Hsha Hfiles.
  exact (run_traced_shape head_sha files h Hevent Hsha Hfiles).
Qed.

Let unmarked (ev : Event) : Prop :=
  match ev with
  | SetFailed _ => False
  | _ => True
  end.

Lemma blocks_unmarked (reviewed : list (PullRequestFile * ChainValues)) :
  Forall unmarked (flat_map block reviewed).
Proof.
  induction reviewed as [|p reviewed IH]; cbn; repeat constructor. exact IH.
Qed.

(** X2. A pull-request run that ends without the mark of failure has
    reviewed every listed file with a patch and posted a comment on
    each, in listing order. *)
Theorem run_without_failure_mark_commented_every_file
    (head_sha : string) (files : list PullRequestFile) (h t : History) :
  Main.eventName context = "pull_request" ->
  Main.payload_head_sha context = Some head_sha ->
  filesAnswer (h ++ [Info (Main.infoMessage context head_sha)])
    (Main.owner context) (Main.repo context) (Main.payload_number context)
    (List.map Js.trim (Js.split "," exclude_files))
  = Success files ->
  Main.run exclude_files context
    (Main.tracedCodeReviewService reviewAnswer chunksAnswer)
    (Main.tracedPullRequestService filesAnswer commentAnswer)
    causeToString h
  = h ++ t ->
  (forall message, ~ In (SetFailed message) t) ->
  exists answers : list ChainValues,
    List.length answers = List.length (filter Main.hasPatch files)
    /\ t = Info (Main.infoMessage context head_sha)
             :: GetFilesForReview (Main.owner context) (Main.repo context)
                  (Main.payload_number context)
                  (List.map Js.trim (Js.split "," exclude_files))
             :: flat_map
                  (fun reviewed =>
                     [ CodeReviewFor (fst reviewed);
                       CreateReviewComment
                         (Main.reviewComment context (fst reviewed) (snd reviewed)) ])
                  (combine (filter Main.hasPatch files) answers).
Proof.
  intros Hevent Hsha Hfiles Hrun Hclean.
  destruct (run_traced_shape head_sha files h Hevent Hsha Hfiles)
    as (k & answers & tail & Hk & Hlen & Hshape & Htail).
  unfold run, reviews, pulls in Hshape. rewrite Hshape in Hrun.
  apply app_inv_head in Hrun. subst t.
  destruct Htail as [[-> Hall] | [(cause & -> & _) | (file & cause & _ & ->)]].
  - exists answers. split; [lia|].
    rewrite app_nil_r. rewrite Hall. now rewrite firstn_all.
  - exfalso. apply (Hclean (causeToString cause)).
    right. right. apply in_or_app. right. now left.
  - exfalso. apply (Hclean (causeToString cause)).
    right. right. apply in_or_app. right. right. now left.
Qed.

Lemma forEach_all_answered (reviewOf : PullRequestFile -> ChainValues)
    (files : list PullRequestFile) :
  forall h : History,
    (forall h' file, In file files -> reviewAnswer h' file = Success (reviewOf file)) ->
    (forall h' file,
       In file files ->
       commentAnswer h' (Main.reviewComment context file (reviewOf file)) = Success tt) ->
    forEach files reviewAndComment h
    = (Success (List.map (fun _ => tt) files),
       h ++ flat_map (fun file => block (file, reviewOf file)) files).
Proof.
  induction files as [|file files IH]; intros h Hreview Hcomment.
  - cbn. now rewrite app_nil_r.
  - cbn [forEach]. unfold flatMap at 1. rewrite reviewAndComment_step.
    rewrite (Hreview h file (or_introl eq_refl)).
    rewrite (Hcomment _ file (or_introl eq_refl)).
    unfold map, flatMap, succeed. rewrite IH.
    + cbn [List.map flat_map]. now rewrite <- app_assoc.
    + intros h' f Hf. apply Hreview. now right.
    + intros h' f Hf. apply Hcomment. now right.
Qed.

(** X3. When the listing answers, every review of a listed file with a
    patch succeeds and every comment is accepted, the run posts exactly
    one comment per such file, in listing order, each right after the
    review of its file and carrying the file's name as path and the
    review text as body, and the hosting environment is not marked
    failed. *)
Theorem run_posts_one_comment_per_patched_file
    (head_sha : string) (files : list PullRequestFile)
    (reviewOf : PullRequestFile -> ChainValues) (h : History) :
  Main.eventName context = "pull_request" ->
  Main.payload_head_sha context = Some head_sha ->
  filesAnswer (h ++ [Info (Main.infoMessage context head_sha)])
    (Main.owner context) (Main.repo context) (Main.payload_number context)
    (List.map Js.trim (Js.split "," exclude_files))
  = Success files ->
  (forall h' file,
     In file files -> patch file <> None ->
     reviewAnswer h' file = Success (reviewOf file)) ->
  (forall h' file,
     In file files -> patch file <> None ->
     commentAnswer h' (Main.reviewComment context file (reviewOf file)) = Success tt) ->
  Main.run exclude_files context
    (Main.tracedCodeReviewService reviewAnswer chunksAnswer)
    (Main.tracedPullRequestService filesAnswer commentAnswer)
    causeToString h
  = h ++ Info (Main.infoMessage context head_sha)
      :: GetFilesForReview (Main.owner context) (Main.repo context)
           (Main.payload_number context)
           (List.map Js.trim (Js.split "," exclude_files))
      :: flat_map
           (fun file =>
              [ CodeReviewFor file;
                CreateReviewComment
                  {| rc_repo := Main.repo context;
                     rc_owner := Main.owner context;
                     rc_pull_number := Main.payload_number context;
                     rc_commit_id := Some head_sha;
                     rc_path := filename file;
                     rc_body := text (reviewOf file);
                     rc_subject_type := "file" |} ])
           (filter Main.hasPatch files).
Proof.
  intros Hevent Hsha Hfiles Hreview Hcomment.
  assert (Hpatched : forall file,
             In file (filter Main.hasPatch files) -> In file files /\ patch file <> None).
  { intros file Hin. apply filter_In in Hin. destruct Hin as [Hin Hhas].
    split; [exact Hin|]. unfold Main.hasPatch in Hhas. now destruct (patch file). }
  unfold Main.run, Main.program. rewrite Hevent.
  cbn [String.eqb Ascii.eqb Bool.eqb].
  unfold map at 1, flatMap at 1.
  rewrite (pullRequestReview_traced exclude_files context reviewAnswer chunksAnswer
             filesAnswer commentAnswer head_sha h Hsha).
  cbv zeta. rewrite Hfiles.
  fold reviews pulls. fold reviewAndComment.
  rewrite (forEach_all_answered reviewOf).
  - unfold succeed. unfold block, Main.reviewComment. cbn [fst snd]. rewrite Hsha.
    now rewrite <- !app_assoc.
  - intros h' file Hin. destruct (Hpatched file Hin). now apply Hreview.
  - intros h' file Hin. destruct (Hpatched file Hin). now apply Hcomment.
Qed.

(** X4. When the file listing fails, the run stops there: after the
    info line and the listing call it only marks the hosting
    environment failed with the rendered cause; no file is reviewed and
    no comment is posted. *)
Theorem run_fails_when_listing_fails
    (head_sha : string) (cause : Cause) (h : History) :
  Main.eventName context = "pull_request" ->
  Main.payload_head_sha context = Some head_sha ->
  filesAnswer (h ++ [Info (Main.infoMessage context head_sha)])
    (Main.owner context) (Main.repo context) (Main.payload_number context)
    (List.map Js.trim (Js.split "," exclude_files))
  = Failure cause ->
  Main.run exclude_files context
    (Main.tracedCodeReviewService reviewAnswer chunksAnswer)
    (Main.tracedPullRequestService filesAnswer commentAnswer)
    causeToString h
  = h ++ [ Info (Main.infoMessage context head_sha);
           GetFilesForReview (Main.owner context) (Main.repo context)
             (Main.payload_number context)
             (List.map Js.trim (Js.split "," exclude_files));
           SetFailed (causeToString cause) ].
Proof.
  intros Hevent Hsha Hfiles.
  unfold Main.run, Main.program. rewrite Hevent.
  cbn [String.eqb Ascii.eqb Bool.eqb].
  unfold map at 1, flatMap at 1.
  rewrite (pullRequestReview_traced exclude_files context reviewAnswer chunksAnswer
             filesAnswer commentAnswer head_sha h Hsha).
  cbv zeta. rewrite Hfiles.
  unfold Main.core_setFailed. now rewrite <- !app_assoc.
Qed.

(** Every run: events that are not the mark of failure, then the mark
    or nothing. *)
Lemma run_traced_body_and_mark (h : History) :
  exists body tail,
    run h = h ++ body ++ tail
    /\ Forall unmarked body
    /\ (tail = [] \/ exists message, tail = [SetFailed message]).
Proof.
  destruct (String.eqb (Main.eventName context) "pull_request") eqn:Hevent.
  2:{ unfold run, Main.run, Main.program. rewrite Hevent.
      exists [], [SetFailed (Main.notPullRequest (Main.eventName context))].
      split; [reflexivity|]. split; [constructor|]. right. now eexists. }
  destruct (Main.payload_head_sha context) as [head_sha|] eqn:Hsha.
  2:{ unfold run, Main.run, Main.program. rewrite Hevent.
      unfold map at 1, flatMap at 1. unfold Main.pullRequestReview. unfold flatMap at 1.
      rewrite (excludeFilePatterns_without_head exclude_files context h Hsha).
      exists [], [SetFailed (causeToString (Die Main.undefinedHead))].
      split; [reflexivity|]. split; [constructor|]. right. now eexists. }
  destruct (filesAnswer (h ++ [Info (Main.infoMessage context head_sha)])
              (Main.owner context) (Main.repo context) (Main.payload_number context)
              patterns) as [files|cause] eqn:Hfiles.
  - apply String.eqb_eq in Hevent.
    destruct (run_traced_shape head_sha files h Hevent Hsha Hfiles)
      as (k & answers & tail & _ & _ & Hshape & Htail).
    rewrite Hshape.
    destruct Htail as [[-> _] | [(cause & -> & _) | (file & cause & _ & ->)]].
    + eexists (_ :: _ :: flat_map block _), []. split.
      * now rewrite !app_nil_r.
      * split; [|now left]. repeat constructor. apply blocks_unmarked.
    + eexists (_ :: _ :: flat_map block _), [SetFailed _]. split; [reflexivity|].
      split; [|right; now eexists]. repeat constructor. apply blocks_unmarked.
    + eexists (_ :: _ :: flat_map block _ ++ [CodeReviewFor file]), [SetFailed _]. split.
      * cbn [app]. now rewrite <- !app_assoc.
      * split; [|right; now eexists]. repeat constructor.
        apply Forall_app. split; [apply blocks_unmarked | repeat constructor].
  - unfold run, Main.run, Main.program. rewrite Hevent.
    unfold map at 1, flatMap at 1. unfold reviews, pulls.
    rewrite (pullRequestReview_traced exclude_files context reviewAnswer chunksAnswer
               filesAnswer commentAnswer head_sha h Hsha).
    cbv zeta. fold patterns. rewrite Hfiles.
    eexists [_; _], [SetFailed _]. split.
    + unfold Main.core_setFailed. now rewrite <- !app_assoc.
    + split; [repeat constructor | right; now eexists].
Qed.

(** X5. Whatever the event, the payload and the answers of the
    services, a run marks the hosting environment failed at most once,
    and when it does this is the last thing it does. *)
Theorem run_marks_failure_at_most_once_and_last (h : History) :
  exists t,
    Main.run exclude_files context
      (Main.tracedCodeReviewService reviewAnswer chunksAnswer)
      (Main.tracedPullRequestService filesAnswer commentAnswer)
      causeToString h
    = h ++ t
    /\ forall t1 message t2,
         t = t1 ++ SetFailed message :: t2 ->
         t2 = [] /\ forall other, ~ In (SetFailed other) t1.
Proof.
  destruct (run_traced_body_and_mark h) as (body & tail & Hrun & Hbody & Htail).
  exists (body ++ tail). split; [exact Hrun|].
  intros t1 message t2 Heq.
  assert (Hquiet : forall l, Forall unmarked l -> forall other, ~ In (SetFailed other) l).
  { intros l Hl other Hin. rewrite Forall_forall in Hl. exact (Hl _ Hin). }
  destruct Htail as [-> | (last & ->)].
  - rewrite app_nil_r in Heq. exfalso.
    apply (Hquiet body Hbody message). rewrite Heq.
    apply in_or_app. right. now left.
  - destruct (only_mark_is_last unmarked body (SetFailed message) (SetFailed last)
                t1 t2 Hbody (fun H => H) (eq_sym Heq)) as [Ht2 Ht1].
    split; [exact Ht2 | exact (Hquiet t1 Ht1)].
Qed.

End TracedRuns.

(** X6. On a [pull_request] event whose payload has no [pull_request],
    the info line already throws: whatever the services are, the run
    lists no files and reviews nothing, and marks the hosting
    environment failed with that defect. *)
Theorem run_fails_without_pull_request_payload
    (exclude_files : string) (context : Main.Context)
    (codeReviewService : Main.CodeReviewService)
    (pullRequestService : Main.PullRequestService)
    (causeToString : Cause -> string) (h : History) :
  Main.eventName context = "pull_request" ->
  Main.payload_head_sha context = None ->
  Main.run exclude_files context codeReviewService pullRequestService causeToString h
  = h ++ [SetFailed (causeToString (Die Main.undefinedHead))].
Proof.
  intros Hevent Hsha. unfold Main.run, Main.program. rewrite Hevent.
  cbn [String.eqb Ascii.eqb Bool.eqb].
  unfold map at 1, flatMap at 1. unfold Main.pullRequestReview. unfold flatMap at 1.
  now rewrite (excludeFilePatterns_without_head exclude_files context h Hsha).
Qed.

(** ** Chunked review, read backwards from its exit *)

Section ChunkedExits.

Variable detectLanguage : string -> option string.
Variable parseDiff : option string -> list FileDiff.
Variable llm : nat -> list ChatMessage -> Js.Error + string.
Variable base : N.
Variable jitter : nat -> N.

Let chunkCall (language : string) (chunk : Chunk) : Eff History ChainValues :=
  tryPromise (CodeReview.chain_call llm {| lang := language; diff := Some (content chunk) |}).

Let chunkRequest (language : string) (chunk : Chunk) : Event :=
  ModelCall (Prompt.rendered language (content chunk)).

Lemma all_chunks_exit (language : string) (cs : list Chunk) :
  forall (h h' : History) (exit : Exit (list ChainValues)),
    all (List.map (chunkCall language) cs) h = (exit, h') ->
    match exit with
    | Success results =>
        List.length results = List.length cs
        /\ h' = h ++ List.map (chunkRequest language) cs
        /\ forall i chunk,
             nth_error cs i = Some chunk ->
             exists reply,
               llm (invocations h + i) (Prompt.rendered language (content chunk)) = inr reply
               /\ nth_error results i = Some {| text := reply |}
    | Failure cause =>
        exists (k : nat) (chunk : Chunk) (rejected : Js.Error),
          nth_error cs k = Some chunk
          /\ llm (invocations h + k) (Prompt.rendered language (content chunk)) = inl rejected
          /\ cause = Fail (UnknownException rejected)
          /\ h' = h ++ List.map (chunkRequest language) (firstn (S k) cs)
          /\ forall i c,
               i < k -> nth_error cs i = Some c ->
               exists reply,
                 llm (invocations h + i) (Prompt.rendered language (content c)) = inr reply
    end.
Proof.
  induction cs as [|chunk cs IH]; intros h h' exit Hrun.
  - cbn in Hrun. inversion Hrun; subst. cbn. rewrite app_nil_r.
    repeat split. intros [|i] c Hc; discriminate Hc.
  - cbn [List.map] in Hrun. rewrite all_cons in Hrun. unfold chunkCall at 1 in Hrun.
    rewrite modelCall_step in Hrun. cbv zeta in Hrun. cbn [lang diff Js.string_of] in Hrun.
    destruct (llm (invocations h) (Prompt.rendered language (content chunk)))
      as [rejected|reply] eqn:Hfirst.
    + inversion Hrun; subst. exists 0, chunk, rejected.
      rewrite Nat.add_0_r. repeat split; try assumption; try reflexivity.
      intros i c Hi. lia.
    + destruct (all (List.map (chunkCall language) cs) _) as [[others|cause] h''] eqn:Hrest;
        inversion Hrun; subst; specialize (IH _ _ _ Hrest); cbn beta iota in IH.
      * destruct IH as (Hlen & Hh & Hans). repeat split.
        -- cbn. now rewrite Hlen.
        -- rewrite Hh. cbn [List.map]. unfold chunkRequest at 3. now rewrite <- app_assoc.
        -- intros [|i] c Hc; cbn in Hc.
           ++ inversion Hc; subst c. exists reply. rewrite Nat.add_0_r. now split.
           ++ destruct (Hans i c Hc) as (r & Hr & Hnth). exists r.
              rewrite invocations_model_call in Hr.
              replace (invocations h + S i) with (S (invocations h) + i) by lia.
              now split.
      * destruct IH as (k & c & rejected & Hc & Hrej & Hcause & Hh & Hbefore).
        exists (S k), c, rejected. rewrite invocations_model_call in Hrej.
        repeat split; try assumption.
        -- now replace (invocations h + S k) with (S (invocations h) + k) by lia.
        -- rewrite Hh. cbn [firstn List.map]. unfold chunkRequest at 3.
           now rewrite <- app_assoc.
        -- intros [|i] c' Hi Hc'; cbn in Hc'.
           ++ inversion Hc'; subst c'. exists reply. now rewrite Nat.add_0_r.
           ++ destruct (Hbefore i c' ltac:(lia) Hc') as (r & Hr). exists r.
              rewrite invocations_model_call in Hr.
              now replace (invocations h + S i) with (S (invocations h) + i) by lia.
Qed.

(** X7. A chunked review that succeeds has dropped and reordered
    nothing: the language was detected, the patch parsed into at least
    one entry, every chunk of the first entry was requested once, in
    order, and the [i]-th result is the model's answer to the [i]-th
    chunk's request. *)
Theorem codeReviewForChunks_success_answers_every_chunk
    (file : PullRequestFile) (results : list ChainValues) (h h' : History) :
  CodeReview.codeReviewForChunks detectLanguage parseDiff llm file h
  = (Success results, h') ->
  exists language fd rest,
    detectLanguage (filename file) = Some language
    /\ parseDiff (patch file) = fd :: rest
    /\ List.length results = List.length (chunks fd)
    /\ h' = h ++ List.map (fun chunk => ModelCall (Prompt.rendered language (content chunk)))
                   (chunks fd)
    /\ forall i chunk,
         nth_error (chunks fd) i = Some chunk ->
         exists reply,
           llm (invocations h + i) (Prompt.rendered language (content chunk)) = inr reply
           /\ nth_error results i = Some {| text := reply |}.
Proof.
  intros Hrun. rewrite codeReviewForChunks_cases in Hrun.
  destruct (detectLanguage (filename file)) as [language|]; [|discriminate].
  destruct (parseDiff (patch file)) as [|fd rest]; [discriminate|].
  exists language, fd, rest. split; [reflexivity|]. split; [reflexivity|].
  exact (all_chunks_exit language (chunks fd) h h' (Success results) Hrun).
Qed.


(** X9. A file name for which no language is found fails both reviews
    with [NoSuchElementException] before anything else happens: the
    patch is not parsed into requests and the model is not called. *)
Theorem reviews_fail_without_language (file : PullRequestFile) (h : History) :
  detectLanguage (filename file) = None ->
  CodeReview.codeReviewFor detectLanguage llm base jitter file h
  = (Failure (Fail NoSuchElementException), h)
  /\ CodeReview.codeReviewForChunks detectLanguage parseDiff llm file h
     = (Failure (Fail NoSuchElementException), h).
Proof.
  intros Hnone. split.
  - unfold CodeReview.codeReviewFor, CodeReview.programmingLanguageOf, flatMap.
    now rewrite Hnone.
  - rewrite codeReviewForChunks_cases. now rewrite Hnone.
Qed.

(** C8. [codeReviewForChunks] reads the first entry of the parsed
    diff only.  When the patch parses into [fd :: rest] and the
    language is detected, the review is the review of the chunks of
    [fd]: it exits as it does when [fd] is the whole parse result; on
    success it has requested every chunk of [fd], in order, and
    returns as many results as [fd] has chunks; on failure it has
    requested the chunks of [fd] up to the first rejected one.  No
    chunk of [rest] is requested and none is missed in the count: the
    later entries are ignored without any sign. *)
Theorem codeReviewForChunks_first_entry_only
    (file : PullRequestFile) (language : string) (fd : FileDiff)
    (rest : list FileDiff) (h : History) :
  detectLanguage (filename file) = Some language ->
  parseDiff (patch file) = fd :: rest ->
  exists (exit : Exit (list ChainValues)) (h' : History),
    CodeReview.codeReviewForChunks detectLanguage parseDiff llm file h = (exit, h')
    /\ CodeReview.codeReviewForChunks detectLanguage (fun _ => [fd]) llm file h
       = (exit, h')
    /\ match exit with
       | Success results =>
           List.length results = List.length (chunks fd)
           /\ h' = h ++ List.map
                          (fun chunk => ModelCall (Prompt.rendered language (content chunk)))
                          (chunks fd)
       | Failure cause =>
           exists (k : nat) (chunk : Chunk) (rejected : Js.Error),
             nth_error (chunks fd) k = Some chunk
             /\ llm (invocations h + k) (Prompt.rendered language (content chunk))
                = inl rejected
             /\ cause = Fail (UnknownException rejected)
             /\ h' = h ++ List.map
                            (fun c => ModelCall (Prompt.rendered language (content c)))
                            (firstn (S k) (chunks fd))
       end.
Proof.
  intros Hlang Hparse.
  destruct (CodeReview.codeReviewForChunks detectLanguage parseDiff llm file h)
    as [exit h'] eqn:Hrun.
  exists exit, h'. split; [reflexivity|].
  assert (Hsame :
    CodeReview.codeReviewForChunks detectLanguage (fun _ => [fd]) llm file h
    = CodeReview.codeReviewForChunks detectLanguage parseDiff llm file h).
  { unfold CodeReview.codeReviewForChunks. now rewrite Hparse. }
  split; [now rewrite Hsame|].
  rewrite codeReviewForChunks_cases, Hlang, Hparse in Hrun.
  pose proof (all_chunks_exit language (chunks fd) h h' exit Hrun) as Hexit.
  destruct exit as [results|cause].
  - destruct Hexit as (Hlen & Hh & _). split; [exact Hlen | exact Hh].
  - destruct Hexit as (k & chunk & rejected & Hchunk & Hrej & Hcause & Hh & _).
    exists k, chunk, rejected. repeat split; assumption.
Qed.

End ChunkedExits.

(** ** Runs with [CodeReviewServiceImpl] behind the tag *)

Section LiveRuns.

Variable detectLanguage : string -> option string.
Variable parseDiff : option string -> list FileDiff.
Variable llm : nat -> list ChatMessage -> Js.Error + string.
Variable base : N.
Variable jitter : nat -> N.
Variable exclude_files : string.
Variable context : Main.Context.
Variable causeToString : Cause -> string.
Variable filesAnswer :
  History -> string -> string -> N -> list string -> Exit (list PullRequestFile).
Variable commentAnswer : History -> ReviewCommentRequest -> Exit unit.

Let live : Main.CodeReviewService :=
  Main.CodeReviewServiceLive detectLanguage parseDiff llm base jitter.

Let pulls : Main.PullRequestService :=
  Main.tracedPullRequestService filesAnswer commentAnswer.

Let reviewAndComment : PullRequestFile -> Eff History unit :=
  Main.reviewAndComment context live pulls.

Let patterns : list string := List.map Js.trim (Js.split "," exclude_files).

Lemma pullRequestReview_listing (reviews : Main.CodeReviewService)
    (head_sha : string) (h : History) :
  Main.payload_head_sha context = Some head_sha ->
  Main.pullRequestReview exclude_files context reviews pulls h
  = match filesAnswer (h ++ [Info (Main.infoMessage context head_sha)])
            (Main.owner context) (Main.repo context) (Main.payload_number context)
            patterns with
    | Success files =>
        forEach (filter Main.hasPatch files)
          (Main.reviewAndComment context reviews pulls)
          ((h ++ [Info (Main.infoMessage context head_sha)])
             ++ [GetFilesForReview (Main.owner context) (Main.repo context)
                   (Main.payload_number context) patterns])
    | Failure cause =>
        (Failure cause,
         (h ++ [Info (Main.infoMessage context head_sha)])
           ++ [GetFilesForReview (Main.owner context) (Main.repo context)
                 (Main.payload_number context) patterns])
    end.
Proof.
  intros Hsha. unfold Main.pullRequestReview.
  unfold flatMap at 1. rewrite (excludeFilePatterns_run exclude_files context head_sha h Hsha).
  unfold flatMap at 1. unfold flatMap at 1.
  cbn [pulls Main.tracedPullRequestService Main.getFilesForReview].
  fold patterns.
  destruct (filesAnswer _ _ _ _ _); reflexivity.
Qed.

Lemma codeReviewFor_live_prompts (file : PullRequestFile) (h : History) :
  exists t,
    snd (CodeReview.codeReviewFor detectLanguage llm base jitter file h) = h ++ t
    /\ forall prompt,
         In (ModelCall prompt) t ->
         exists language,
           detectLanguage (filename file) = Some language
           /\ prompt = Prompt.rendered language (Js.string_of (patch file)).
Proof.
  unfold CodeReview.codeReviewFor, CodeReview.programmingLanguageOf, flatMap.
  destruct (detectLanguage (filename file)) as [language|] eqn:Hlang.
  - destruct (retryLoop_prompts llm base jitter {| lang := language; diff := patch file |} 2
                {| CodeReview.attempt := 1; CodeReview.delay := base |} h)
      as (t & Hsnd & Hprompts).
    exists t. split; [exact Hsnd|].
    intros prompt Hin. exists language. split; [reflexivity|].
    exact (Hprompts prompt Hin).
  - exists []. split; [cbn; now rewrite app_nil_r|]. intros prompt [].
Qed.

Lemma forEach_live_prompts (files : list PullRequestFile) :
  forall h : History,
    exists t,
      snd (forEach files reviewAndComment h) = h ++ t
      /\ forall prompt,
           In (ModelCall prompt) t ->
           exists file language,
             In file files
             /\ detectLanguage (filename file) = Some language
             /\ prompt = Prompt.rendered language (Js.string_of (patch file)).
Proof.
  induction files as [|file files IH]; intros h.
  - exists []. split; [cbn; now rewrite app_nil_r|]. intros prompt [].
  - cbn [forEach]. unfold flatMap at 1.
    unfold reviewAndComment at 1, Main.reviewAndComment, flatMap.
    cbn [live Main.CodeReviewServiceLive Main.codeReviewFor
         pulls Main.tracedPullRequestService Main.createReviewComment].
    destruct (codeReviewFor_live_prompts file h) as (t0 & Hsnd0 & Hprompts0).
    destruct (CodeReview.codeReviewFor detectLanguage llm base jitter file h)
      as [[res|cause] h0]; cbn [snd] in Hsnd0; subst h0.
    + set (posted := CreateReviewComment _).
      assert (Hfirst : forall prompt,
                 In (ModelCall prompt) (t0 ++ [posted]) ->
                 exists f language,
                   In f (file :: files)
                   /\ detectLanguage (filename f) = Some language
                   /\ prompt = Prompt.rendered language (Js.string_of (patch f))).
      { intros prompt Hin. apply in_app_or in Hin. destruct Hin as [Hin|[Hin|[]]].
        - destruct (Hprompts0 prompt Hin) as (language & Hlang & Hprompt).
          exists file, language. split; [now left | now split].
        - discriminate Hin. }
      destruct (commentAnswer _ _) as [[]|cause].
      * destruct (IH ((h ++ t0) ++ [posted])) as (t & Hsnd & Hprompts).
        exists ((t0 ++ [posted]) ++ t). split.
        -- unfold map, flatMap, succeed.
           destruct (forEach files reviewAndComment _) as [[done|c] h'];
             cbn [snd] in *; rewrite Hsnd; now rewrite <- !app_assoc.
        -- intros prompt Hin. apply in_app_or in Hin. destruct Hin as [Hin|Hin].
           ++ now apply Hfirst.
           ++ destruct (Hprompts prompt Hin) as (f & language & Hf & Hlang & Hprompt).
              exists f, language. split; [now right | now split].
      * exists (t0 ++ [posted]). split; [cbn [snd]; now rewrite <- app_assoc | exact Hfirst].
    + exists t0. split; [reflexivity|].
      intros prompt Hin. destruct (Hprompts0 prompt Hin) as (language & Hlang & Hprompt).
      exists file, language. split; [now left | now split].
Qed.

(** X10. With [CodeReviewServiceImpl] behind the tag, every prompt a
    run sends to the model is rendered from a listed file that has a
    patch, with the language found for its name and its patch text as
    the diff: no prompt is ever sent for a file without a patch. *)
Theorem run_sends_prompts_for_patched_files_only
    (head_sha : string) (files : list PullRequestFile) (h : History) :
  Main.eventName context = "pull_request" ->
  Main.payload_head_sha context = Some head_sha ->
  filesAnswer (h ++ [Info (Main.infoMessage context head_sha)])
    (Main.owner context) (Main.repo context) (Main.payload_number context)
    (List.map Js.trim (Js.split "," exclude_files))
  = Success files ->
  exists t,
    Main.run exclude_files context
      (Main.CodeReviewServiceLive detectLanguage parseDiff llm base jitter)
      (Main.tracedPullRequestService filesAnswer commentAnswer)
      causeToString h
    = h ++ t
    /\ forall prompt,
         In (ModelCall prompt) t ->
         exists file language diffText,
           In file files
           /\ patch file = Some diffText
           /\ detectLanguage (filename file) = Some language
           /\ prompt = Prompt.rendered language diffText.
Proof.
  intros Hevent Hsha Hfiles.
  unfold Main.run, Main.program. rewrite Hevent.
  cbn [String.eqb Ascii.eqb Bool.eqb].
  unfold map at 1, flatMap at 1.
  fold live pulls. rewrite (pullRequestReview_listing live head_sha h Hsha).
  fold patterns in Hfiles. rewrite Hfiles.
  fold reviewAndComment.
  set (info := Info _). set (listing := GetFilesForReview _ _ _ _).
  destruct (forEach_live_prompts (filter Main.hasPatch files) ((h ++ [info]) ++ [listing]))
    as (t & Hsnd & Hprompts).
  assert (Hpatched : forall prompt,
             In (ModelCall prompt) t ->
             exists file language diffText,
               In file files
               /\ patch file = Some diffText
               /\ detectLanguage (filename file) = Some language
               /\ prompt = Prompt.rendered language diffText).
  { intros prompt Hin.
    destruct (Hprompts prompt Hin) as (file & language & Hfile & Hlang & Hprompt).
    apply filter_In in Hfile. destruct Hfile as [Hfile Hhas].
    unfold Main.hasPatch in Hhas.
    destruct (patch file) as [diffText|] eqn:Hpatch; [|discriminate].
    exists file, language, diffText. repeat split; assumption. }
  destruct (forEach (filter Main.hasPatch files) reviewAndComment _)
    as [[done|cause] h'] eqn:Hloop; cbn [snd] in Hsnd; subst h'.
  - exists (info :: listing :: t). split.
    + unfold succeed. now rewrite <- !app_assoc.
    + intros prompt [Hin|[Hin|Hin]]; [discriminate Hin | discriminate Hin | now apply Hpatched].
  - exists (info :: listing :: t ++ [SetFailed (causeToString cause)]). split.
    + unfold Main.core_setFailed. now rewrite <- !app_assoc.
    + intros prompt [Hin|[Hin|Hin]]; [discriminate Hin | discriminate Hin |].
      apply in_app_or in Hin. destruct Hin as [Hin|[Hin|[]]];
        [now apply Hpatched | discriminate Hin].
Qed.

Lemma codeReviewFor_answered_at_once
    (file : PullRequestFile) (language reply : string) (h : History) :
  detectLanguage (filename file) = Some language ->
  llm (invocations h) (Prompt.rendered language (Js.string_of (patch file))) = inr reply ->
  CodeReview.codeReviewFor detectLanguage llm base jitter file h
  = (Success {| text := reply |},
     h ++ [ModelCall (Prompt.rendered language (Js.string_of (patch file)))]).
Proof.
  intros Hlang Hreply.
  unfold CodeReview.codeReviewFor, CodeReview.programmingLanguageOf, flatMap.
  rewrite Hlang. cbn [fromOption succeed].
  unfold CodeReview.retry.
  cbn [CodeReview.maxAttempts CodeReview.exponentialBackoffWithJitter Nat.sub].
  cbn [CodeReview.retryLoop].
  now rewrite (modelCall_answered llm {| lang := language; diff := patch file |} h reply Hreply).
Qed.

Lemma forEach_live_all_answered
    (languageOf : PullRequestFile -> string) (reply : list ChatMessage -> string)
    (files : list PullRequestFile) :
  forall h : History,
    (forall file, In file files -> detectLanguage (filename file) = Some (languageOf file)) ->
    (forall n prompt, llm n prompt = inr (reply prompt)) ->
    (forall h' request, commentAnswer h' request = Success tt) ->
    forEach files reviewAndComment h
    = (Success (List.map (fun _ => tt) files),
       h ++ flat_map
              (fun file =>
                 let prompt :=
                   Prompt.rendered (languageOf file) (Js.string_of (patch file)) in
                 [ ModelCall prompt;
                   CreateReviewComment
                     (Main.reviewComment context file {| text := reply prompt |}) ])
              files).
Proof.
  induction files as [|file files IH]; intros h Hlang Hllm Hcomment.
  - cbn. now rewrite app_nil_r.
  - cbn [forEach]. unfold flatMap at 1.
    unfold reviewAndComment at 1, Main.reviewAndComment, flatMap.
    cbn [live Main.CodeReviewServiceLive Main.codeReviewFor
         pulls Main.tracedPullRequestService Main.createReviewComment].
    rewrite (codeReviewFor_answered_at_once file (languageOf file)
               (reply (Prompt.rendered (languageOf file) (Js.string_of (patch file)))) h
               (Hlang file (or_introl eq_refl)) (Hllm _ _)).
    rewrite Hcomment. unfold map, flatMap, succeed.
    rewrite IH; try assumption.
    + cbn [List.map flat_map]. cbv zeta. now rewrite <- !app_assoc.
    + intros f Hf. apply Hlang. now right.
Qed.

(** X11. With [CodeReviewServiceImpl] behind the tag: when the listing
    answers, a language is found for every listed file with a patch,
    the model answers every call and every comment is accepted, the
    run makes one model call per such file, in listing order, with the
    prompt rendered from the file's language and patch, posts the
    model's answer as the body of the comment on that file right after
    the call, never sleeps and does not mark the run failed. *)
Theorem run_with_answering_model_reviews_every_patched_file
    (head_sha : string) (files : list PullRequestFile)
    (languageOf : PullRequestFile -> string) (reply : list ChatMessage -> string)
    (h : History) :
  Main.eventName context = "pull_request" ->
  Main.payload_head_sha context = Some head_sha ->
  filesAnswer (h ++ [Info (Main.infoMessage context head_sha)])
    (Main.owner context) (Main.repo context) (Main.payload_number context)
    (List.map Js.trim (Js.split "," exclude_files))
  = Success files ->
  (forall file,
     In file files -> patch file <> None ->
     detectLanguage (filename file) = Some (languageOf file)) ->
  (forall n prompt, llm n prompt = inr (reply prompt)) ->
  (forall h' request, commentAnswer h' request = Success tt) ->
  Main.run exclude_files context
    (Main.CodeReviewServiceLive detectLanguage parseDiff llm base jitter)
    (Main.tracedPullRequestService filesAnswer commentAnswer)
    causeToString h
  = h ++ Info (Main.infoMessage context head_sha)
      :: GetFilesForReview (Main.owner context) (Main.repo context)
           (Main.payload_number context)
           (List.map Js.trim (Js.split "," exclude_files))
      :: flat_map
           (fun file =>
              let prompt :=
                Prompt.rendered (languageOf file) (Js.string_of (patch file)) in
              [ ModelCall prompt;
                CreateReviewComment
                  (Main.reviewComment context file {| text := reply prompt |}) ])
           (filter Main.hasPatch files).
Proof.
  intros Hevent Hsha Hfiles Hlang Hllm Hcomment.
  unfold Main.run, Main.program. rewrite Hevent.
  cbn [String.eqb Ascii.eqb Bool.eqb].
  unfold map at 1, flatMap at 1.
  fold live pulls. rewrite (pullRequestReview_listing live head_sha h Hsha).
  fold patterns in Hfiles. rewrite Hfiles.
  fold reviewAndComment.
  rewrite (forEach_live_all_answered languageOf reply); try assumption.
  - unfold succeed. fold patterns. now rewrite <- !app_assoc.
  - intros file Hin. apply filter_In in Hin. destruct Hin as [Hin Hhas].
    apply Hlang; [exact Hin|]. unfold Main.hasPatch in Hhas. now destruct (patch file).
Qed.

End LiveRuns.

(** ** The exclude patterns *)

Lemma split_length (sep : ascii) (s : string) :
  List.length (Js.split sep s)
  = S (List.length (filter (fun c => Ascii.eqb c sep) (list_ascii_of_string s))).
Proof.
  induction s as [|c s IH]; [reflexivity|].
  cbn [Js.split list_ascii_of_string filter].
  destruct (Ascii.eqb c sep).
  - cbn [List.length]. now rewrite IH.
  - destruct (Js.split sep s) as [|piece pieces] eqn:Hsplit;
      [now apply split_not_empty in Hsplit|].
    cbn [List.length] in *. exact IH.
Qed.

(** X12. The exclude patterns are one more than the commas of the
    [exclude_files] input: the list is never empty, and an empty piece
    (an empty input, a doubled or trailing comma) stays in it as an
    empty pattern. *)
Theorem exclude_patterns_one_more_than_commas
    (exclude_files : string) (context : Main.Context) (head_sha : string) (h : History) :
  Main.payload_head_sha context = Some head_sha ->
  exists patterns,
    Main.excludeFilePatterns exclude_files context h
    = (Success patterns, h ++ [Info (Main.infoMessage context head_sha)])
    /\ List.length patterns
       = S (List.length
              (filter (fun c => Ascii.eqb c ",") (list_ascii_of_string exclude_files))).
Proof.
  intros Hsha. eexists. split.
  - exact (excludeFilePatterns_run exclude_files context head_sha h Hsha).
  - rewrite length_map. apply split_length.
Qed.

(** X13. Every exclude pattern is clean: it holds no comma, it neither
    starts nor ends with white space, and trimming it again changes
    nothing. *)
Theorem exclude_patterns_are_clean
    (exclude_files : string) (context : Main.Context) (head_sha : string) (h : History) :
  Main.payload_head_sha context = Some head_sha ->
  exists patterns,
    Main.excludeFilePatterns exclude_files context h
    = (Success patterns, h ++ [Info (Main.infoMessage context head_sha)])
    /\ forall pattern,
         In pattern patterns ->
         Js.occurs "," pattern = false
         /\ (forall c rest, pattern = String c rest -> Js.isWhiteSpace c = false)
         /\ (forall front c,
               pattern = (front ++ String c EmptyString)%string ->
               Js.isWhiteSpace c = false)
         /\ Js.trim pattern = pattern.
Proof.
  intros Hsha. eexists. split.
  - exact (excludeFilePatterns_run exclude_files context head_sha h Hsha).
  - intros pattern Hin. apply in_map_iff in Hin. destruct Hin as (piece & <- & Hpiece).
    pose proof (split_pieces_without_separator "," exclude_files) as Hclean.
    rewrite Forall_forall in Hclean. specialize (Hclean piece Hpiece).
    split.
    { unfold Js.trim. now apply occurs_trimEnd, occurs_trimStart. }
    split.
    { intros c rest Heq. now apply (trim_black_head piece c rest). }
    split.
    { intros front c Heq. unfold Js.trim in Heq.
      now apply (trimEnd_black_last (Js.trimStart piece) front c). }
    apply trim_fixed.
Qed.

(** ** The earlier chat prompt *)

Lemma parse_earlier_systemTemplate :
  FString.parseFString EarlierPrompt.systemTemplate
  = inr [FString.NodeLiteral EarlierPrompt.systemTemplate].
Proof. vm_compute. reflexivity. Qed.

Lemma parse_earlier_humanTemplate :
  FString.parseFString EarlierPrompt.humanTemplate
  = inr [ FString.NodeLiteral EarlierPrompt.beforeLang; FString.NodeVariable "lang";
          FString.NodeLiteral EarlierPrompt.betweenLangAndDiff;
          FString.NodeVariable "diff" ].
Proof. vm_compute. reflexivity. Qed.

(** X14. The earlier chat prompt renders like the current one: its
    human template is fixed text, [{lang}], fixed text, [{diff}]; no
    fixed text holds a brace; for every [{ lang, diff }] rendering
    succeeds and yields the system text and the human text with the
    language label and the diff text, verbatim, in those two places.
    The text between the two placeholders is the same in both
    prompts. *)
Theorem earlier_prompt_holds_diff_and_language :
  EarlierPrompt.humanTemplate
  = (EarlierPrompt.beforeLang ++ "{lang}"
       ++ EarlierPrompt.betweenLangAndDiff ++ "{diff}")%string
  /\ Prompt.braceFree EarlierPrompt.systemTemplate = true
  /\ Prompt.braceFree EarlierPrompt.beforeLang = true
  /\ Prompt.braceFree EarlierPrompt.betweenLangAndDiff = true
  /\ EarlierPrompt.betweenLangAndDiff = Prompt.betweenLangAndDiff
  /\ forall values : ChainInput,
       EarlierPrompt.formatMessages values
       = inr [ SystemMessage EarlierPrompt.systemTemplate;
               HumanMessage
                 (EarlierPrompt.beforeLang ++ lang values
                    ++ EarlierPrompt.betweenLangAndDiff
                    ++ Js.string_of (diff values))%string ].
Proof.
  split; [vm_compute; reflexivity|].
  split; [vm_compute; reflexivity|].
  split; [vm_compute; reflexivity|].
  split; [vm_compute; reflexivity|].
  split; [vm_compute; reflexivity|].
  intros values.
  unfold EarlierPrompt.formatMessages, FString.interpolateFString.
  rewrite parse_earlier_systemTemplate, parse_earlier_humanTemplate.
  rewrite (interpolate_two_variables (Prompt.lookup values) _ _ _ _
             (lang values) (Js.string_of (diff values)))
    by reflexivity.
  reflexivity.
Qed.

(** ** The further properties on the scenario *)

Lemma run_reviews_then_comments_in_listing_order_scenario :
  exists (k : nat) (answers : list ChainValues) (tail : History),
    k <= 3
    /\ List.length answers = k
    /\ Main.run "*.md" Scenario.pullRequest
         (Main.tracedCodeReviewService Scenario.reviewAnswer Scenario.chunksAnswer)
         (Main.tracedPullRequestService Scenario.filesAnswer Scenario.commentAnswer)
         Scenario.causeToString []
       = Info "repoName: shop pull_number: 7 owner: acme sha: c0ffee"
           :: GetFilesForReview "acme" "shop" 7 ["*.md"]
           :: flat_map
                (fun reviewed =>
                   [ CodeReviewFor (fst reviewed);
                     CreateReviewComment
                       (Main.reviewComment Scenario.pullRequest
                          (fst reviewed) (snd reviewed)) ])
                (combine (firstn k [Scenario.bar; Scenario.foo; Scenario.baz]) answers)
           ++ tail
    /\ ((tail = [] /\ k = 3)
        \/ (exists cause, tail = [SetFailed (Scenario.causeToString cause)] /\ 0 < k)
        \/ (exists file cause,
              nth_error [Scenario.bar; Scenario.foo; Scenario.baz] k = Some file
              /\ tail = [CodeReviewFor file; SetFailed (Scenario.causeToString cause)])).
Proof.
  exact (run_reviews_then_comments_in_listing_order "*.md" Scenario.pullRequest
           Scenario.causeToString Scenario.reviewAnswer Scenario.chunksAnswer
           Scenario.filesAnswer Scenario.commentAnswer "c0ffee"
           [Scenario.logo; Scenario.bar; Scenario.foo; Scenario.baz] []
           eq_refl eq_refl eq_refl).
Defined.

Lemma run_without_failure_mark_commented_every_file_scenario :
  exists answers : list ChainValues,
    List.length answers = 3
    /\ Main.run "*.md" Scenario.pullRequest
         (Main.tracedCodeReviewService
            (fun _ _ => Success {| text := "LGTM" |}) Scenario.chunksAnswer)
         (Main.tracedPullRequestService Scenario.filesAnswer Scenario.commentAnswer)
         Scenario.causeToString []
       = Info "repoName: shop pull_number: 7 owner: acme sha: c0ffee"
           :: GetFilesForReview "acme" "shop" 7 ["*.md"]
           :: flat_map
                (fun reviewed =>
                   [ CodeReviewFor (fst reviewed);
                     CreateReviewComment
                       (Main.reviewComment Scenario.pullRequest
                          (fst reviewed) (snd reviewed)) ])
                (combine [Scenario.bar; Scenario.foo; Scenario.baz] answers).
Proof.
  apply (run_without_failure_mark_commented_every_file "*.md" Scenario.pullRequest
           Scenario.causeToString (fun _ _ => Success {| text := "LGTM" |})
           Scenario.chunksAnswer Scenario.filesAnswer Scenario.commentAnswer "c0ffee"
           [Scenario.logo; Scenario.bar; Scenario.foo; Scenario.baz] [] _
           eq_refl eq_refl eq_refl eq_refl).
  intros message Hin. cbn in Hin.
  repeat (destruct Hin as [Hin|Hin]; [discriminate Hin|]). exact Hin.
Defined.

Lemma run_posts_one_comment_per_patched_file_scenario :
  Main.run "*.md" Scenario.pullRequest
    (Main.tracedCodeReviewService
       (fun _ file => Success {| text := ("Review of " ++ filename file)%string |})
       Scenario.chunksAnswer)
    (Main.tracedPullRequestService Scenario.filesAnswer Scenario.commentAnswer)
    Scenario.causeToString []
  = Info "repoName: shop pull_number: 7 owner: acme sha: c0ffee"
      :: GetFilesForReview "acme" "shop" 7 ["*.md"]
      :: flat_map
           (fun file =>
              [ CodeReviewFor file;
                CreateReviewComment
                  {| rc_repo := "shop";
                     rc_owner := "acme";
                     rc_pull_number := 7;
                     rc_commit_id := Some "c0ffee";
                     rc_path := filename file;
                     rc_body := ("Review of " ++ filename file)%string;
                     rc_subject_type := "file" |} ])
           [Scenario.bar; Scenario.foo; Scenario.baz].
Proof.
  apply (run_posts_one_comment_per_patched_file "*.md" Scenario.pullRequest
           Scenario.causeToString
           (fun _ file => Success {| text := ("Review of " ++ filename file)%string |})
           Scenario.chunksAnswer Scenario.filesAnswer Scenario.commentAnswer "c0ffee"
           [Scenario.logo; Scenario.bar; Scenario.foo; Scenario.baz]
           (fun file => {| text := ("Review of " ++ filename file)%string |}) []
           eq_refl eq_refl eq_refl).
  - intros h' file Hin Hpatch. reflexivity.
  - intros h' file Hin Hpatch. reflexivity.
Defined.

Lemma run_fails_when_listing_fails_scenario :
  Main.run "*.md" Scenario.pullRequest
    (Main.tracedCodeReviewService Scenario.reviewAnswer Scenario.chunksAnswer)
    (Main.tracedPullRequestService
       (fun _ _ _ _ _ => Failure (Fail (UnknownException "403 Forbidden")))
       Scenario.commentAnswer)
    Scenario.causeToString []
  = [ Info "repoName: shop pull_number: 7 owner: acme sha: c0ffee";
      GetFilesForReview "acme" "shop" 7 ["*.md"];
      SetFailed "UnknownException: 403 Forbidden" ].
Proof.
  exact (run_fails_when_listing_fails "*.md" Scenario.pullRequest
           Scenario.causeToString Scenario.reviewAnswer Scenario.chunksAnswer
           (fun _ _ _ _ _ => Failure (Fail (UnknownException "403 Forbidden")))
           Scenario.commentAnswer "c0ffee"
           (Fail (UnknownException "403 Forbidden")) []
           eq_refl eq_refl eq_refl).
Defined.

Lemma run_fails_without_pull_request_payload_scenario :
  Main.run "*.md"
    {| Main.eventName := "pull_request";
       Main.owner := "acme";
       Main.repo := "shop";
       Main.payload_number := 7;
       Main.payload_head_sha := None |}
    (Main.tracedCodeReviewService Scenario.reviewAnswer Scenario.chunksAnswer)
    (Main.tracedPullRequestService Scenario.filesAnswer Scenario.commentAnswer)
    Scenario.causeToString []
  = [SetFailed "TypeError: Cannot read properties of undefined (reading 'head')"].
Proof.
  exact (run_fails_without_pull_request_payload "*.md"
           {| Main.eventName := "pull_request";
              Main.owner := "acme";
              Main.repo := "shop";
              Main.payload_number := 7;
              Main.payload_head_sha := None |}
           (Main.tracedCodeReviewService Scenario.reviewAnswer Scenario.chunksAnswer)
           (Main.tracedPullRequestService Scenario.filesAnswer Scenario.commentAnswer)
           Scenario.causeToString [] eq_refl eq_refl).
Defined.

Lemma codeReviewForChunks_success_answers_every_chunk_scenario :
  exists language fd rest,
    Scenario.detectLanguage "Foo.java" = Some language
    /\ Scenario.parseDiff (Some Scenario.fooPatch) = fd :: rest
    /\ 2 = List.length (chunks fd)
    /\ [ ModelCall (Prompt.rendered "Java" (content Scenario.firstHunk));
         ModelCall (Prompt.rendered "Java" (content Scenario.secondHunk)) ]
       = List.map (fun chunk => ModelCall (Prompt.rendered language (content chunk)))
           (chunks fd)
    /\ forall i chunk,
         nth_error (chunks fd) i = Some chunk ->
         exists reply,
           Scenario.answersAll (0 + i) (Prompt.rendered language (content chunk)) = inr reply
           /\ nth_error [ {| text := "review of the first hunk" |};
                          {| text := "review of the second hunk" |} ] i
              = Some {| text := reply |}.
Proof.
  apply (codeReviewForChunks_success_answers_every_chunk Scenario.detectLanguage
           Scenario.parseDiff Scenario.answersAll Scenario.foo
           [ {| text := "review of the first hunk" |};
             {| text := "review of the second hunk" |} ]
           []
           [ ModelCall (Prompt.rendered "Java" (content Scenario.firstHunk));
             ModelCall (Prompt.rendered "Java" (content Scenario.secondHunk)) ]).
  vm_compute. reflexivity.
Defined.


Lemma reviews_fail_without_language_scenario :
  CodeReview.codeReviewFor Scenario.detectLanguage Scenario.answersAll
    1000 Scenario.noJitter Scenario.logo []
  = (Failure (Fail NoSuchElementException), [])
  /\ CodeReview.codeReviewForChunks Scenario.detectLanguage Scenario.parseDiff
       Scenario.answersAll Scenario.logo []
     = (Failure (Fail NoSuchElementException), []).
Proof.
  exact (reviews_fail_without_language Scenario.detectLanguage Scenario.parseDiff
           Scenario.answersAll 1000 Scenario.noJitter Scenario.logo [] eq_refl).
Defined.

Lemma run_sends_prompts_for_patched_files_only_scenario :
  exists t,
    Main.run "*.md" Scenario.pullRequest
      (Main.CodeReviewServiceLive Scenario.detectLanguage Scenario.parseDiff
         Scenario.failsTwice 1000 Scenario.noJitter)
      (Main.tracedPullRequestService Scenario.filesAnswer Scenario.commentAnswer)
      Scenario.causeToString []
    = [] ++ t
    /\ forall prompt,
         In (ModelCall prompt) t ->
         exists file language diffText,
           In file [Scenario.logo; Scenario.bar; Scenario.foo; Scenario.baz]
           /\ patch file = Some diffText
           /\ Scenario.detectLanguage (filename file) = Some language
           /\ prompt = Prompt.rendered language diffText.
Proof.
  exact (run_sends_prompts_for_patched_files_only Scenario.detectLanguage
           Scenario.parseDiff Scenario.failsTwice 1000 Scenario.noJitter
           "*.md" Scenario.pullRequest Scenario.causeToString
           Scenario.filesAnswer Scenario.commentAnswer "c0ffee"
           [Scenario.logo; Scenario.bar; Scenario.foo; Scenario.baz] []
           eq_refl eq_refl eq_refl).
Defined.

Lemma run_with_answering_model_reviews_every_patched_file_scenario :
  Main.run "*.md" Scenario.pullRequest
    (Main.CodeReviewServiceLive Scenario.detectLanguage Scenario.parseDiff
       (fun _ _ => inr "LGTM") 1000 Scenario.noJitter)
    (Main.tracedPullRequestService Scenario.filesAnswer Scenario.commentAnswer)
    Scenario.causeToString []
  = Info "repoName: shop pull_number: 7 owner: acme sha: c0ffee"
      :: GetFilesForReview "acme" "shop" 7 ["*.md"]
      :: flat_map
           (fun file =>
              [ ModelCall (Prompt.rendered "Java" (Js.string_of (patch file)));
                CreateReviewComment
                  (Main.reviewComment Scenario.pullRequest file {| text := "LGTM" |}) ])
           [Scenario.bar; Scenario.foo; Scenario.baz].
Proof.
  apply (run_with_answering_model_reviews_every_patched_file Scenario.detectLanguage
           Scenario.parseDiff (fun _ _ => inr "LGTM") 1000 Scenario.noJitter
           "*.md" Scenario.pullRequest Scenario.causeToString
           Scenario.filesAnswer Scenario.commentAnswer "c0ffee"
           [Scenario.logo; Scenario.bar; Scenario.foo; Scenario.baz]
           (fun _ => "Java") (fun _ => "LGTM") []
           eq_refl eq_refl eq_refl).
  - intros file [<-|[<-|[<-|[<-|[]]]]] Hpatch; try reflexivity.
    now contradiction Hpatch.
  - intros n prompt. reflexivity.
  - intros h' request. reflexivity.
Defined.

Lemma exclude_patterns_one_more_than_commas_scenario :
  exists patterns,
    Main.excludeFilePatterns " *.md ,docs/** ," Scenario.pullRequest []
    = (Success patterns,
       [] ++ [Info (Main.infoMessage Scenario.pullRequest "c0ffee")])
    /\ List.length patterns = 3.
Proof.
  exact (exclude_patterns_one_more_than_commas " *.md ,docs/** ," Scenario.pullRequest
           "c0ffee" [] eq_refl).
Defined.

Lemma exclude_patterns_are_clean_scenario :
  exists patterns,
    Main.excludeFilePatterns " *.md ,docs/** ," Scenario.pullRequest []
    = (Success patterns,
       [] ++ [Info (Main.infoMessage Scenario.pullRequest "c0ffee")])
    /\ forall pattern,
         In pattern patterns ->
         Js.occurs "," pattern = false
         /\ (forall c rest, pattern = String c rest -> Js.isWhiteSpace c = false)
         /\ (forall front c,
               pattern = (front ++ String c EmptyString)%string ->
               Js.isWhiteSpace c = false)
         /\ Js.trim pattern = pattern.
Proof.
  exact (exclude_patterns_are_clean " *.md ,docs/** ," Scenario.pullRequest
           "c0ffee" [] eq_refl).
Defined.

Lemma codeReviewForChunks_first_entry_only_scenario :
  exists (results : list ChainValues) (h' : History),
    CodeReview.codeReviewForChunks Scenario.detectLanguage Scenario.parseDiff
      Scenario.answersAll Scenario.foo []
    = (Success results, h')
    /\ CodeReview.codeReviewForChunks Scenario.detectLanguage
         (fun _ => [Scenario.fooDiff]) Scenario.answersAll Scenario.foo []
       = (Success results, h')
    /\ List.length results = 2
    /\ h' = [ ModelCall (Prompt.rendered "Java" (content Scenario.firstHunk));
              ModelCall (Prompt.rendered "Java" (content Scenario.secondHunk)) ].
Proof.
  destruct (codeReviewForChunks_first_entry_only Scenario.detectLanguage
              Scenario.parseDiff Scenario.answersAll Scenario.foo "Java"
              Scenario.fooDiff [Scenario.strayDiff] [] eq_refl eq_refl)
    as (exit & h' & Hrun & Hfirst & Hshape).
  destruct exit as [results|cause].
  - destruct Hshape as (Hlen & Hh). exists results, h'.
    split; [exact Hrun|]. split; [exact Hfirst|]. split; [exact Hlen | exact Hh].
  - destruct Hshape as (k & chunk & rejected & _ & Hrej & _).
    unfold Scenario.answersAll in Hrej.
    destruct (invocations [] + k); discriminate Hrej.
Defined.

(** ** What a chunk's prompt holds *)

(** C7. The prompt of a chunk does not hold the chunk's diff text.  On
    a patch of one hunk, whose chunk parse-diff gives with the header
    line as [content], [codeReviewForChunks] sends one prompt, rendered
    from the header line alone: it holds the language label and the
    header and neither changed line, so not the patch.  On the same
    file [codeReviewFor] sends the prompt rendered from the whole
    patch, which it holds verbatim. *)
Theorem codeReviewForChunks_sends_hunk_header_only :
  CodeReview.codeReviewForChunks Scenario.detectLanguage Hunks.parseDiff
    Hunks.answering Hunks.file []
  = (Success [ {| text := "LGTM" |} ],
     [ ModelCall (Prompt.rendered "Java" Hunks.header) ])
  /\ (forall sent,
        In (HumanMessage sent) (Prompt.rendered "Java" Hunks.header) ->
        Js.includes sent "Java" = true
        /\ Js.includes sent Hunks.header = true
        /\ Js.includes sent Hunks.removed = false
        /\ Js.includes sent Hunks.added = false
        /\ Js.includes sent Hunks.patchText = false)
  /\ CodeReview.codeReviewFor Scenario.detectLanguage Hunks.answering
       1000 Scenario.noJitter Hunks.file []
     = (Success {| text := "LGTM" |},
        [ ModelCall (Prompt.rendered "Java" Hunks.patchText) ])
  /\ (forall sent,
        In (HumanMessage sent) (Prompt.rendered "Java" Hunks.patchText) ->
        Js.includes sent Hunks.patchText = true).
Proof.
  split; [vm_compute; reflexivity|].
  split.
  { intros sent Hin. unfold Prompt.rendered in Hin. cbn [In] in Hin.
    destruct Hin as [Hin|[Hin|[]]]; [discriminate Hin|].
    injection Hin as <-. vm_compute. repeat split. }
  split; [vm_compute; reflexivity|].
  intros sent Hin. unfold Prompt.rendered in Hin. cbn [In] in Hin.
  destruct Hin as [Hin|[Hin|[]]]; [discriminate Hin|].
  injection Hin as <-. vm_compute. reflexivity.
Qed.
